(** * OrderItem controller (controller/device/v1/orderItemController.js)

    A shallow embedding of the twelve request handlers of the OrderItem
    controller, and the properties of its specification.

    The handlers are JavaScript [async] functions.  Each one inspects the
    request, may call the data-access layer ([dbService]) and answers with
    one of the response envelopes of [res].  They are embedded as programs
    of a small monad [js] whose only effects are the ones the source has:
    a thrown exception, and an awaited [dbService] call that either
    resolves with a value or rejects with an error.  A program is run
    against an arbitrary [dbService]; the run records every call made. *)

From stdpp Require Import gmap strings list fin_maps pretty.
From Stdlib Require Import ZArith Ascii.

Set Warnings "-register-all".
Local Open Scope Z_scope.

(** ** JavaScript data *)

(** The values the controller handles: request bodies parsed from JSON,
    path parameters, the caller's identity, and what the data-access layer
    returns.  Numbers are the integer-valued ones (the controller only
    tests a number for being zero, for being less than one and for being
    equal to 11000).  An object is a finite map from property names to
    values.  An array has its elements and, as every JavaScript array
    object, may carry named properties besides ([named]); a parsed JSON
    array has none. *)
Inductive value : Type :=
| VUndef
| VNull
| VBool (b : bool)
| VNum (n : Z)
| VStr (s : string)
| VArr (xs : list value) (named : gmap string value)
| VObj (fs : gmap string value).

Abbreviation obj := (gmap string value).

(** The [Error] objects that reach a [catch] clause. *)
Record error : Type := Error {
  error_name : string;
  error_code : value;
  error_message : string
}.

Definition show_nullish (v : value) : string :=
  match v with VNull => "null" | _ => "undefined" end.

(** The [TypeError] the engine raises (message wording of V8). *)
Definition TypeError (msg : string) : error :=
  {| error_name := "TypeError"; error_code := VUndef; error_message := msg |}.

(** [!!v] *)
Definition truthy (v : value) : bool :=
  match v with
  | VUndef | VNull => false
  | VBool b => b
  | VNum n => negb (n =? 0)
  | VStr s => negb (String.eqb s "")
  | VArr _ _ | VObj _ => true
  end.

(** [typeof v] *)
Definition typeof (v : value) : string :=
  match v with
  | VUndef => "undefined"
  | VNull => "object"
  | VBool _ => "boolean"
  | VNum _ => "number"
  | VStr _ => "string"
  | VArr _ _ | VObj _ => "object"
  end.

(** [v !== null] *)
Definition not_null (v : value) : bool :=
  match v with VNull => false | _ => true end.

(** [typeof v === 'object' && v !== null] *)
Definition is_object (v : value) : bool :=
  String.eqb (typeof v) "object" && not_null v.

(** [Array.isArray(v)] *)
Definition isArray (v : value) : bool :=
  match v with VArr _ _ => true | _ => false end.

(** [v.length] of an array [v]; only read behind [Array.isArray(v)]. *)
Definition array_length (v : value) : Z :=
  match v with VArr xs _ => Z.of_nat (length xs) | _ => 0 end.

(** The array index a property name denotes, if it is below [n]: the name
    is the canonical decimal rendering of the index. *)
Definition array_index (k : string) (n : nat) : option nat :=
  fst <$> list_find (λ i : nat, pretty i = k) (seq 0 n).

(** The one-character string at position [i] of [s]. *)
Definition char_at (s : string) (i : nat) : value :=
  match String.get i s with
  | Some c => VStr (String c EmptyString)
  | None => VUndef
  end.

(** [v.k] / [v[k]]: reading a property.  Reading from [undefined] or [null]
    throws.  Only own data properties are modelled; of the names the
    controller reads ([id], [ids], [data], [filter], [query], [options],
    [where], [isCountOnly], [length]) the only one a built-in prototype
    supplies is [filter] on arrays, a function, and the controller tests
    that read with [typeof ... === 'object'] only, which is false for a
    function as it is for [undefined]. *)
Definition getProp (v : value) (k : string) : error + value :=
  match v with
  | VUndef | VNull =>
      inl (TypeError ("Cannot read properties of " +:+ show_nullish v
                      +:+ " (reading '" +:+ k +:+ "')"))
  | VBool _ | VNum _ => inr VUndef
  | VStr s =>
      if String.eqb k "length" then inr (VNum (Z.of_nat (String.length s)))
      else match array_index k (String.length s) with
           | Some i => inr (char_at s i)
           | None => inr VUndef
           end
  | VArr xs named =>
      if String.eqb k "length" then inr (VNum (Z.of_nat (length xs)))
      else match array_index k (length xs) with
           | Some i => inr (default VUndef (xs !! i))
           | None => inr (default VUndef (named !! k))
           end
  | VObj fs => inr (default VUndef (fs !! k))
  end.

(** [delete v[k]] for a name [k] that is not an array index (the controller
    deletes [addedBy] and [updatedBy] only); the result is the receiver
    after the deletion.  Primitives are left as they are. *)
Definition deleteProp (v : value) (k : string) : error + value :=
  match v with
  | VUndef | VNull => inl (TypeError "Cannot convert undefined or null to object")
  | VBool _ | VNum _ | VStr _ => inr v
  | VArr xs named => inr (VArr xs (delete k named))
  | VObj fs => inr (VObj (delete k fs))
  end.

(** [v[k] = x] for a name [k] that is not an array index (the controller
    assigns [addedBy] only); the result is the receiver after the
    assignment.  The file is a CommonJS module without a strict-mode
    directive: assigning a property of a primitive is silently dropped. *)
Definition setProp (v : value) (k : string) (x : value) : error + value :=
  match v with
  | VUndef | VNull =>
      inl (TypeError ("Cannot set properties of " +:+ show_nullish v
                      +:+ " (setting '" +:+ k +:+ "')"))
  | VBool _ | VNum _ | VStr _ => inr v
  | VArr xs named => inr (VArr xs (<[k := x]> named))
  | VObj fs => inr (VObj (<[k := x]> fs))
  end.

(** The elements of an array (or characters of a string) as properties. *)
Definition indexed (xs : list value) : obj :=
  list_to_map (imap (λ (i : nat) x, (pretty i, x)) xs).

(** [{ ...v }]: the own enumerable properties an object spread copies.
    Spreading [undefined], [null], a boolean or a number copies nothing. *)
Definition spread (v : value) : obj :=
  match v with
  | VObj fs => fs
  | VArr xs named => indexed xs ∪ named
  | VStr s => indexed ((λ c, VStr (String c EmptyString)) <$> String.list_ascii_of_string s)
  | _ => ∅
  end.

(** ** Collaborators *)

(** [require('../../../model/orderItem')] *)
Inductive model : Type := OrderItem.

(** [new OrderItem(fields)]: a document of the model built from [fields]. *)
Inductive document : Type := new (m : model) (fields : obj).

(** [require('../../../utils/validation/orderItemValidation')] *)
Inductive orderItemSchemaKey : Type := schemaKeys | updateSchemaKeys | findFilterKeys.

(** [OrderItem.schema.obj] *)
Inductive modelSchema : Type := OrderItem_schema_obj.

(** What the validation layer answers: [{isValid, message}]. *)
Record validateResult : Type := {
  isValid : bool;
  message : string
}.

(** The calls of the data-access layer, [dbService.<name>(arguments)]. *)
Inductive dbCall : Type :=
| createDocument (m : model) (data : document)
| getAllDocuments (m : model) (query options : value)
| countDocument (m : model) (where_ : value)
| bulkUpdate (m : model) (filter data : value)
| bulkInsert (m : model) (data : value)
| deleteMany (m : model) (query : value)
| findOneAndUpdateDocument (m : model) (query data options : value)
| findOneAndDeleteDocument (m : model) (query : value)
| getSingleDocument (m : model) (query options : value).

(** How the promise of a data-access call settles. *)
Inductive settled : Type :=
| Resolved (v : value)
| Rejected (e : error).

(** The response envelopes of [res]. *)
Inductive response : Type :=
| ok (data : value)
| recordNotFound
| badRequest
| invalidObjectId
| inValidParam (message : string)
| validationError (message : string)
| isDuplicate
| failureResponse (data : option value).

(** What the controller takes from outside this file: the validation layer
    ([utils/validateRequest]), which answers [{isValid, message}] for a
    payload and a schema; [ObjectID.isValid] of the mongodb driver; and the
    language's abstract equality [==], of which only the comparison of two
    numbers is fixed here (line 37 compares [error.code], which may be any
    value, with a number).  The properties below hold for every choice of
    these. *)
Class Collaborators : Type := {
  validateParamsWithJoi : value → orderItemSchemaKey → validateResult;
  validateFilterWithJoi : value → orderItemSchemaKey → option modelSchema → validateResult;
  ObjectID_isValid : value → bool;
  looseEq : value → value → bool;
  looseEq_numbers : ∀ a b : Z, looseEq (VNum a) (VNum b) = (a =? b)
}.

(** ** The effects of a handler *)

(** A program returns, throws, or awaits a call of the data-access layer
    and goes on with the way the call settled. *)
Inductive js (A : Type) : Type :=
| Ret (a : A)
| Throw (e : error)
| Await (c : dbCall) (k : settled → js A).
Arguments Ret {A} a.
Arguments Throw {A} e.
Arguments Await {A} c k.

Fixpoint bind {A B : Type} (m : js A) (f : A → js B) : js B :=
  match m with
  | Ret a => f a
  | Throw e => Throw e
  | Await c k => Await c (λ r, bind (k r) f)
  end.

Notation "x <- m ;; k" := (bind m (λ x, k))
  (at level 100, m at next level, right associativity).

(** [try { m } catch (error) { return h error }] *)
Fixpoint try_catch {A : Type} (m : js A) (h : error → A) : js A :=
  match m with
  | Ret a => Ret a
  | Throw e => Ret (h e)
  | Await c k => Await c (λ r, try_catch (k r) h)
  end.

(** A pure step that may throw. *)
Definition lift {A : Type} (r : error + A) : js A :=
  match r with
  | inl e => Throw e
  | inr a => Ret a
  end.

(** [await dbService.<call>]: a rejection is thrown at the [await]. *)
Definition await (c : dbCall) : js value :=
  Await c (λ r, match r with Resolved v => Ret v | Rejected e => Throw e end).

Definition read (v : value) (k : string) : js value := lift (getProp v k).

(** One run of a program against a data-access layer over a store. *)
Record outcome (store A : Type) : Type := Outcome {
  result : error + A;
  final : store;
  calls : list (dbCall * settled)
}.
Arguments Outcome {store A} result final calls.
Arguments result {store A} o.
Arguments final {store A} o.
Arguments calls {store A} o.

Fixpoint run {store A : Type} (dbService : dbCall → store → settled * store)
    (m : js A) (s : store) : outcome store A :=
  match m with
  | Ret a => Outcome (inr a) s []
  | Throw e => Outcome (inl e) s []
  | Await c k =>
      let (r, s') := dbService c s in
      let o := run dbService (k r) s' in
      Outcome (result o) (final o) ((c, r) :: calls o)
  end.

(** ** The handlers *)

(** The parts of [req] the controller reads: [req.body], [req.params] and
    [req.user]. *)
Record request : Type := {
  body : value;
  params : value;
  user : value
}.

(** [data[i].addedBy = id] for [i] from [0] to [data.length - 1]. *)
Fixpoint stampAddedBy (xs : list value) (id : value) : error + list value :=
  match xs with
  | [] => inr []
  | x :: rest =>
      match setProp x "addedBy" id with
      | inl e => inl e
      | inr x' =>
          match stampAddedBy rest id with
          | inl e => inl e
          | inr rest' => inr (x' :: rest')
          end
      end
  end.

(** The loop of [bulkInsertOrderItem], lines 149-151.  The guard of line
    144 leaves either an array here (truthy body) or [undefined] (falsy
    body), whose [length] cannot be read ([bulkInsert_data_shape] below). *)
Definition stampEach (data id : value) : js value :=
  match data with
  | VArr xs named =>
      xs' <- lift (stampAddedBy xs id) ;;
      Ret (VArr xs' named)
  | _ =>
      _ <- read data "length" ;;
      Ret data
  end.

Section Controller.
Context `{Collaborators}.

(** [error.code && error.code == 11000] *)
Definition duplicateKey (e : error) : bool :=
  truthy (error_code e) && looseEq (error_code e) (VNum 11000).

(** The [catch] clause of [addOrderItem], [bulkInsertOrderItem] and
    [updateOrderItem]. *)
Definition catchStore (e : error) : response :=
  if String.eqb (error_name e) "ValidationError" then
    validationError ("Invalid Data, Validation Failed at " +:+ error_message e)
  else if duplicateKey e then isDuplicate
  else failureResponse (Some (VStr (error_message e))).

(** [catch (error) { return res.failureResponse({ data:error.message }) }] *)
Definition catchMessage (e : error) : response :=
  failureResponse (Some (VStr (error_message e))).

(** [catch (error) { return res.failureResponse() }] *)
Definition catchBare (e : error) : response :=
  failureResponse None.

(** Every handler is [try { ... } catch (error) { ... }]: [<name>_try] is
    its [try] block, and [<name>] the whole function. *)

Definition addOrderItem_try (req : request) : js response :=
  let validateRequest := validateParamsWithJoi (body req) schemaKeys in
  if negb (isValid validateRequest) then
    Ret (inValidParam ("Invalid values in parameters, " +:+ message validateRequest))
  else
    id <- read (user req) "id" ;;
    let data := new OrderItem (<["addedBy" := id]> (spread (body req))) in
    result <- await (createDocument OrderItem data) ;;
    Ret (ok result).

Definition addOrderItem (req : request) : js response :=
  try_catch (addOrderItem_try req) catchStore.

Definition findAllOrderItem_try (req : request) : js response :=
  let validateRequest :=
    validateFilterWithJoi (body req) findFilterKeys (Some OrderItem_schema_obj) in
  if negb (isValid validateRequest) then
    Ret (inValidParam (message validateRequest))
  else
    q <- read (body req) "query" ;;
    let query : obj := if is_object q then spread q else ∅ in
    isCountOnly <- read (body req) "isCountOnly" ;;
    if truthy isCountOnly then
      totalRecords <- await (countDocument OrderItem (VObj query)) ;;
      Ret (ok (VObj {[ "totalRecords" := totalRecords ]}))
    else
      options <- (if truthy (body req) then
                    o <- read (body req) "options" ;;
                    Ret (if is_object o then spread o else ∅)
                  else Ret ∅) ;;
      result <- await (getAllDocuments OrderItem (VObj query) (VObj options)) ;;
      found <- (if truthy result then
                  data <- read result "data" ;;
                  if truthy data then
                    len <- read data "length" ;;
                    Ret (truthy len)
                  else Ret false
                else Ret false) ;;
      if found : bool then Ret (ok result) else Ret recordNotFound.

Definition findAllOrderItem (req : request) : js response :=
  try_catch (findAllOrderItem_try req) catchMessage.

Definition getOrderItemCount_try (req : request) : js response :=
  let validateRequest := validateFilterWithJoi (body req) findFilterKeys None in
  if negb (isValid validateRequest) then
    Ret (inValidParam (message validateRequest))
  else
    w <- read (body req) "where" ;;
    let where_ : obj := if is_object w then spread w else ∅ in
    result <- await (countDocument OrderItem (VObj where_)) ;;
    Ret (ok (VObj {[ "totalRecords" := result ]})).

Definition getOrderItemCount (req : request) : js response :=
  try_catch (getOrderItemCount_try req) catchMessage.

Definition softDeleteManyOrderItem_try (req : request) : js response :=
  ids <- read (body req) "ids" ;;
  if negb (truthy ids) || negb (isArray ids) || (array_length ids <? 1) then
    Ret badRequest
  else
    let query := VObj {[ "_id" := VObj {[ "$in" := ids ]} ]} in
    let updateBody := VObj {[ "isDeleted" := VBool true ]} in
    data <- await (bulkUpdate OrderItem query updateBody) ;;
    if negb (truthy data) then Ret recordNotFound
    else Ret (ok data).

Definition softDeleteManyOrderItem (req : request) : js response :=
  try_catch (softDeleteManyOrderItem_try req) catchBare.

Definition bulkInsertOrderItem_try (req : request) : js response :=
  bad <- (if truthy (body req) then
            d <- read (body req) "data" ;;
            Ret (negb (isArray d) || (array_length d <? 1))
          else Ret false) ;;
  if bad : bool then Ret badRequest
  else
    data <- read (body req) "data" ;;
    id <- read (user req) "id" ;;
    data <- (if truthy id then stampEach data id else Ret data) ;;
    result <- await (bulkInsert OrderItem data) ;;
    Ret (ok result).

Definition bulkInsertOrderItem (req : request) : js response :=
  try_catch (bulkInsertOrderItem_try req) catchStore.

Definition bulkUpdateOrderItem_try (req : request) : js response :=
  filter <- (if truthy (body req) then
               f <- read (body req) "filter" ;;
               Ret (if is_object f then spread f else ∅)
             else Ret ∅) ;;
  d <- read (body req) "data" ;;
  if is_object d then
    let data : obj := spread d in
    let data := delete "addedBy" data in
    let data := delete "updatedBy" data in
    id <- read (user req) "id" ;;
    let data := <["updatedBy" := id]> data in
    result <- await (bulkUpdate OrderItem (VObj filter) (VObj data)) ;;
    if negb (truthy result) then Ret recordNotFound
    else Ret (ok result)
  else Ret badRequest.

Definition bulkUpdateOrderItem (req : request) : js response :=
  try_catch (bulkUpdateOrderItem_try req) catchMessage.

Definition deleteManyOrderItem_try (req : request) : js response :=
  ids <- read (body req) "ids" ;;
  if negb (truthy ids) || negb (isArray ids) || (array_length ids <? 1) then
    Ret badRequest
  else
    let query := VObj {[ "_id" := VObj {[ "$in" := ids ]} ]} in
    result <- await (deleteMany OrderItem query) ;;
    Ret (ok result).

Definition deleteManyOrderItem (req : request) : js response :=
  try_catch (deleteManyOrderItem_try req) catchBare.

Definition softDeleteOrderItem_try (req : request) : js response :=
  id <- read (params req) "id" ;;
  let query := VObj {[ "_id" := id ]} in
  let updateBody := VObj {[ "isDeleted" := VBool true ]} in
  result <- await (findOneAndUpdateDocument OrderItem query updateBody
                     (VObj {[ "new" := VBool true ]})) ;;
  if negb (truthy result) then Ret recordNotFound
  else Ret (ok result).

Definition softDeleteOrderItem (req : request) : js response :=
  try_catch (softDeleteOrderItem_try req) catchBare.

(** Lines 245-250 and 277-282: the body loses [addedBy] and [updatedBy],
    then [{ updatedBy: req.user.id, ...req.body }] is built: the
    properties of the body are written over the initial [updatedBy]. *)
Definition updateData (req : request) : js obj :=
    b <- lift (deleteProp (body req) "addedBy") ;;
    b <- lift (deleteProp b "updatedBy") ;;
    id <- read (user req) "id" ;;
    Ret (spread b ∪ {[ "updatedBy" := id ]}).

Definition partialUpdateOrderItem_try (req : request) : js response :=
  data <- updateData req ;;
  let validateRequest := validateParamsWithJoi (VObj data) updateSchemaKeys in
  if negb (isValid validateRequest) then
    Ret (inValidParam ("Invalid values in parameters, " +:+ message validateRequest))
  else
    id <- read (params req) "id" ;;
    let query := VObj {[ "_id" := id ]} in
    result <- await (findOneAndUpdateDocument OrderItem query (VObj data)
                       (VObj {[ "new" := VBool true ]})) ;;
    if negb (truthy result) then Ret recordNotFound
    else Ret (ok result).

Definition partialUpdateOrderItem (req : request) : js response :=
  try_catch (partialUpdateOrderItem_try req) catchMessage.

Definition updateOrderItem_try (req : request) : js response :=
  data <- updateData req ;;
  let validateRequest := validateParamsWithJoi (VObj data) updateSchemaKeys in
  if negb (isValid validateRequest) then
    Ret (inValidParam ("Invalid values in parameters, " +:+ message validateRequest))
  else
    id <- read (params req) "id" ;;
    let query := VObj {[ "_id" := id ]} in
    result <- await (findOneAndUpdateDocument OrderItem query (VObj data)
                       (VObj {[ "new" := VBool true ]})) ;;
    if negb (truthy result) then Ret recordNotFound
    else Ret (ok result).

Definition updateOrderItem (req : request) : js response :=
  try_catch (updateOrderItem_try req) catchStore.

Definition getOrderItem_try (req : request) : js response :=
  id <- read (params req) "id" ;;
  if negb (ObjectID_isValid id) then Ret invalidObjectId
  else
    let query := VObj {[ "_id" := id ]} in
    let options := VObj ∅ in
    result <- await (getSingleDocument OrderItem query options) ;;
    if truthy result then Ret (ok result)
    else Ret recordNotFound.

Definition getOrderItem (req : request) : js response :=
  try_catch (getOrderItem_try req) catchMessage.

Definition deleteOrderItem_try (req : request) : js response :=
  id <- read (params req) "id" ;;
  let query := VObj {[ "_id" := id ]} in
  result <- await (findOneAndDeleteDocument OrderItem query) ;;
  if truthy result then Ret (ok result)
  else Ret recordNotFound.

Definition deleteOrderItem (req : request) : js response :=
  try_catch (deleteOrderItem_try req) catchBare.

(** [module.exports] *)
Inductive operation : Type :=
| AddOrderItem | FindAllOrderItem | GetOrderItemCount
| SoftDeleteManyOrderItem | BulkInsertOrderItem | BulkUpdateOrderItem
| DeleteManyOrderItem | SoftDeleteOrderItem | PartialUpdateOrderItem
| UpdateOrderItem | GetOrderItem | DeleteOrderItem.

Definition handler (op : operation) : request → js response :=
  match op with
  | AddOrderItem => addOrderItem
  | FindAllOrderItem => findAllOrderItem
  | GetOrderItemCount => getOrderItemCount
  | SoftDeleteManyOrderItem => softDeleteManyOrderItem
  | BulkInsertOrderItem => bulkInsertOrderItem
  | BulkUpdateOrderItem => bulkUpdateOrderItem
  | DeleteManyOrderItem => deleteManyOrderItem
  | SoftDeleteOrderItem => softDeleteOrderItem
  | PartialUpdateOrderItem => partialUpdateOrderItem
  | UpdateOrderItem => updateOrderItem
  | GetOrderItem => getOrderItem
  | DeleteOrderItem => deleteOrderItem
  end.

(** The [try] block and the [catch] clause of each handler. *)
Definition tryBlock (op : operation) : request → js response :=
  match op with
  | AddOrderItem => addOrderItem_try
  | FindAllOrderItem => findAllOrderItem_try
  | GetOrderItemCount => getOrderItemCount_try
  | SoftDeleteManyOrderItem => softDeleteManyOrderItem_try
  | BulkInsertOrderItem => bulkInsertOrderItem_try
  | BulkUpdateOrderItem => bulkUpdateOrderItem_try
  | DeleteManyOrderItem => deleteManyOrderItem_try
  | SoftDeleteOrderItem => softDeleteOrderItem_try
  | PartialUpdateOrderItem => partialUpdateOrderItem_try
  | UpdateOrderItem => updateOrderItem_try
  | GetOrderItem => getOrderItem_try
  | DeleteOrderItem => deleteOrderItem_try
  end.

Definition catchClause (op : operation) : error → response :=
  match op with
  | AddOrderItem | BulkInsertOrderItem | UpdateOrderItem => catchStore
  | FindAllOrderItem | GetOrderItemCount | BulkUpdateOrderItem
  | PartialUpdateOrderItem | GetOrderItem => catchMessage
  | SoftDeleteManyOrderItem | DeleteManyOrderItem | SoftDeleteOrderItem
  | DeleteOrderItem => catchBare
  end.

End Controller.

(** ** Reasoning about runs *)

(** [wp m Q]: whatever the data-access layer answers, a run of [m] makes
    calls [tr] and ends in [o] with [Q tr o]. *)
Fixpoint wp {A : Type} (m : js A)
    (Q : list (dbCall * settled) → error + A → Prop) : Prop :=
  match m with
  | Ret a => Q [] (inr a)
  | Throw e => Q [] (inl e)
  | Await c k => ∀ r, wp (k r) (λ tr o, Q ((c, r) :: tr) o)
  end.

(** ** Vocabulary of the properties *)

(** [v == null]: [undefined] or [null], the receivers no property can be
    read from. *)
Definition nullish (v : value) : bool :=
  match v with VUndef | VNull => true | _ => false end.

(** A character no decimal digit prints as: a property name that starts
    with one is not an array index. *)
Definition letter (c : ascii) : Prop := ∀ d, pretty_N_char d ≠ c.

(** The update data a call hands to the data-access layer. *)
Definition updateOf (c : dbCall) : option value :=
  match c with
  | findOneAndUpdateDocument _ _ data _ => Some data
  | bulkUpdate _ _ data => Some data
  | _ => None
  end.

(** The update payload the client sent: the body, and for the bulk update
    its [data] property. *)
Definition clientUpdate (op : operation) (req : request) : value :=
  match op with
  | BulkUpdateOrderItem =>
      match getProp (body req) "data" with inr d => d | inl _ => VUndef end
  | _ => body req
  end.

(** The handlers whose [catch] clause calls [res.failureResponse()] without
    the error message (lines 132, 214, 233 and 349). *)
Definition bareFailure (op : operation) : bool :=
  match op with
  | SoftDeleteManyOrderItem | DeleteManyOrderItem
  | SoftDeleteOrderItem | DeleteOrderItem => true
  | _ => false
  end.

(** The responses a handler gives when a check on the request fails:
    [badRequest], [inValidParam] and [invalidObjectId]. *)
Definition checkFailure (r : response) : bool :=
  match r with
  | badRequest | inValidParam _ | invalidObjectId => true
  | _ => false
  end.

Section Shape.
Context `{Collaborators}.

(** The [try] block returns before any call of the data-access layer. *)
Definition answersBeforeStore (op : operation) (req : request) : bool :=
  match tryBlock op req with Ret _ => true | _ => false end.

(** The [try] block throws before any call of the data-access layer. *)
Definition raisesBeforeStore (op : operation) (req : request) : bool :=
  match tryBlock op req with Throw _ => true | _ => false end.

End Shape.

(** Modelled from the spec: how the data-access layer applies an update
    body to the record it matched is not part of this file.  The
    specification describes an update as writing the given fields (a
    partial update, or the flip of the soft-delete flag), and its scenario
    of an update whose [addedBy] was stripped has the persisted [addedBy]
    unchanged while [updatedBy] becomes the caller's: the fields of the
    update body replace the record's and the others stay. *)
Definition applyUpdate (updateBody record : obj) : obj :=
  updateBody ∪ record.

(** ** Vocabulary of the further properties *)

(** An error the engine raised: a [TypeError], without a code. *)
Definition isTypeError (e : error) : Prop :=
  error_name e = "TypeError" ∧ error_code e = VUndef.

(** [v.k] where [v] is known not to be [undefined] or [null]. *)
Definition prop (v : value) (k : string) : value :=
  match getProp v k with inr x => x | inl _ => VUndef end.

(** [result && result.data && result.data.length], line 75. *)
Definition hasData (result : value) : bool :=
  truthy result && truthy (prop result "data")
  && truthy (prop (prop result "data") "length").

(** What [res.ok] is given for the value a call resolved with: the count
    handlers wrap it as [{ totalRecords }] (lines 68 and 104), the others
    pass it on. *)
Definition answerData (c : dbCall) (v : value) : value :=
  match c with
  | countDocument _ _ => VObj {[ "totalRecords" := v ]}
  | _ => v
  end.

(** The query of a call that addresses one record. *)
Definition queryOf (c : dbCall) : option value :=
  match c with
  | findOneAndUpdateDocument _ query _ _ => Some query
  | findOneAndDeleteDocument _ query => Some query
  | getSingleDocument _ query _ => Some query
  | _ => None
  end.

(** The function of [dbService] each handler calls. *)
Definition designated (op : operation) (c : dbCall) : bool :=
  match op, c with
  | AddOrderItem, createDocument _ _ => true
  | FindAllOrderItem, (countDocument _ _ | getAllDocuments _ _ _) => true
  | GetOrderItemCount, countDocument _ _ => true
  | (SoftDeleteManyOrderItem | BulkUpdateOrderItem), bulkUpdate _ _ _ => true
  | BulkInsertOrderItem, bulkInsert _ _ => true
  | DeleteManyOrderItem, deleteMany _ _ => true
  | (SoftDeleteOrderItem | PartialUpdateOrderItem | UpdateOrderItem),
    findOneAndUpdateDocument _ _ _ _ => true
  | GetOrderItem, getSingleDocument _ _ _ => true
  | DeleteOrderItem, findOneAndDeleteDocument _ _ => true
  | _, _ => false
  end.

(** The parts of the request a [try] block reads on every path to its
    store call: [req.body] (property reads of lines 63, 100, 119, 147,
    179, 206 and the [delete] of lines 245, 277), [req.params] (lines 225,
    258, 290, 316, 341) and [req.user] (lines 29, 148, 183, 248, 280). *)
Definition readsBody (op : operation) : bool :=
  match op with
  | FindAllOrderItem | GetOrderItemCount | SoftDeleteManyOrderItem
  | BulkInsertOrderItem | BulkUpdateOrderItem | DeleteManyOrderItem
  | PartialUpdateOrderItem | UpdateOrderItem => true
  | _ => false
  end.

Definition readsParams (op : operation) : bool :=
  match op with
  | SoftDeleteOrderItem | PartialUpdateOrderItem | UpdateOrderItem
  | GetOrderItem | DeleteOrderItem => true
  | _ => false
  end.

Definition readsUser (op : operation) : bool :=
  match op with
  | AddOrderItem | BulkInsertOrderItem | BulkUpdateOrderItem
  | PartialUpdateOrderItem | UpdateOrderItem => true
  | _ => false
  end.

Section Validation.
Context `{Collaborators}.

(** The validation a handler runs, on the payload it runs it on (lines 21,
    54, 93, 251 and 283); the update handlers validate the data they
    built, when building it did not throw. *)
Definition validationOf (op : operation) (req : request) : option validateResult :=
  match op with
  | AddOrderItem => Some (validateParamsWithJoi (body req) schemaKeys)
  | FindAllOrderItem =>
      Some (validateFilterWithJoi (body req) findFilterKeys (Some OrderItem_schema_obj))
  | GetOrderItemCount => Some (validateFilterWithJoi (body req) findFilterKeys None)
  | PartialUpdateOrderItem | UpdateOrderItem =>
      match updateData req with
      | Ret data => Some (validateParamsWithJoi (VObj data) updateSchemaKeys)
      | _ => None
      end
  | _ => None
  end.

(** The message of [res.inValidParam] (lines 25, 61, 98, 256 and 288). *)
Definition invalidMessage (op : operation) (v : validateResult) : string :=
  match op with
  | FindAllOrderItem | GetOrderItemCount => message v
  | _ => "Invalid values in parameters, " +:+ message v
  end.

End Validation.

(** ** Requests and results of the further examples *)

Definition reqList : request :=
  {| body := VObj {[ "query" := VObj {[ "status" := VStr "open" ]};
                     "options" := VStr "page=1" ]};
     params := VObj ∅;
     user := VObj {[ "id" := VStr "U1" ]} |}.

(** A page with one record, and a page without any. *)
Definition page : value :=
  VObj {[ "data" := VArr [VObj {[ "name" := VStr "Widget" ]}] ∅ ]}.
Definition emptyPage : value := VObj {[ "data" := VArr [] ∅ ]}.

Definition reqWhere : request :=
  {| body := VObj {[ "where" := VObj {[ "status" := VStr "open" ]} ]};
     params := VObj ∅;
     user := VObj {[ "id" := VStr "U1" ]} |}.

(** A bulk update without [filter]. *)
Definition reqBulkUpdate : request :=
  {| body := VObj {[ "data" := VObj {[ "status" := VStr "closed";
                                       "addedBy" := VStr "attacker" ]} ]};
     params := VObj ∅;
     user := VObj {[ "id" := VStr "U1" ]} |}.

(** A bulk insert of an entity and a number. *)
Definition reqMixed : request :=
  {| body := VObj {[ "data" := VArr [VObj {[ "name" := VStr "Widget" ]}; VNum 5] ∅ ]};
     params := VObj ∅;
     user := VObj {[ "id" := VStr "U1" ]} |}.

(** A bulk insert by a caller whose [req.user] has no [id]. *)
Definition reqNoIdentity : request :=
  {| body := VObj {[ "data" := VArr [VObj {[ "name" := VStr "Widget";
                                             "addedBy" := VStr "attacker" ]}] ∅ ]};
     params := VObj ∅;
     user := VObj ∅ |}.

(** A create request whose body is a string, and one without [req.user]. *)
Definition reqString : request :=
  {| body := VStr "Widget"; params := VObj ∅; user := VObj {[ "id" := VStr "U1" ]} |}.

Definition reqNoUser : request :=
  {| body := VObj {[ "name" := VStr "Widget" ]}; params := VObj ∅; user := VUndef |}.

(** A record by its identifier, or by none. *)
Definition reqById (id : value) : request :=
  {| body := VObj {[ "name" := VStr "Gadget" ]};
     params := VObj {[ "id" := id ]};
     user := VObj {[ "id" := VStr "U1" ]} |}.

(** ** Concrete collaborators, requests and errors *)

(** The handlers are run below against these collaborators. *)

Definition isHexDigit (c : ascii) : bool :=
  let n := nat_of_ascii c in
  ((48 <=? n) && (n <=? 57) || (65 <=? n) && (n <=? 70)
   || (97 <=? n) && (n <=? 102))%nat.

(** An identifier check: a string of 24 hexadecimal digits. *)
Definition isValid24 (id : value) : bool :=
  match id with
  | VStr s => (String.length s =? 24)%nat
              && forallb isHexDigit (String.list_ascii_of_string s)
  | _ => false
  end.

(** An abstract equality that relates equal numbers and nothing else. *)
Definition numbersEq (a b : value) : bool :=
  match a, b with
  | VNum x, VNum y => x =? y
  | _, _ => false
  end.

(** A validation layer that accepts exactly the payloads that are objects,
    and every filter. *)
Definition objectsOnly (payload : value) (_ : orderItemSchemaKey) : validateResult :=
  {| isValid := is_object payload;
     message := if is_object payload then "" else "value must be of type object" |}.

Definition anyFilter (_ : value) (_ : orderItemSchemaKey) (_ : option modelSchema)
    : validateResult :=
  {| isValid := true; message := "" |}.

Definition demo : Collaborators :=
  {| validateParamsWithJoi := objectsOnly;
     validateFilterWithJoi := anyFilter;
     ObjectID_isValid := isValid24;
     looseEq := numbersEq;
     looseEq_numbers := λ a b, eq_refl |}.

(** A data-access layer over a store that counts the calls it received and
    settles each one the same way. *)
Definition settleWith (r : settled) (_ : dbCall) (n : nat) : settled * nat :=
  (r, S n).

(** The caller [U1] and the entity [{name: "Widget"}]. *)
Definition U1 : value := VObj {[ "id" := VStr "U1" ]}.
Definition widget : value := VObj {[ "name" := VStr "Widget" ]}.

Definition reqAdd : request :=
  {| body := widget; params := VObj ∅; user := U1 |}.

(** An update by [U1] of the record [X] whose body tries to set [addedBy]
    and [updatedBy]. *)
Definition reqUpdate : request :=
  {| body := VObj {[ "name" := VStr "Widget"; "addedBy" := VStr "attacker";
                     "updatedBy" := VStr "attacker" ]};
     params := VObj {[ "id" := VStr "X" ]};
     user := U1 |}.

(** A body that serves as payload of [addOrderItem] and, by its [data], of
    [bulkInsertOrderItem]; both carry an [addedBy] of the client's. *)
Definition reqCreate : request :=
  {| body := VObj {[ "name" := VStr "Widget"; "addedBy" := VStr "attacker";
                     "data" := VArr [VObj {[ "name" := VStr "Widget";
                                             "addedBy" := VStr "attacker" ]}] ∅ ]};
     params := VObj ∅;
     user := U1 |}.

Definition reqIds (ids : list value) : request :=
  {| body := VObj {[ "ids" := VArr ids ∅ ]}; params := VObj ∅; user := U1 |}.

Definition reqGet (id : string) : request :=
  {| body := VObj ∅; params := VObj {[ "id" := VStr id ]}; user := U1 |}.

(** [findAllOrderItem] with [isCountOnly = true] and
    [query = {status: "open"}]. *)
Definition reqCountOnly : request :=
  {| body := VObj {[ "isCountOnly" := VBool true;
                     "query" := VObj {[ "status" := VStr "open" ]} ]};
     params := VObj ∅;
     user := U1 |}.

(** [bulkInsertOrderItem] with [data = [null]]. *)
Definition reqNullElement : request :=
  {| body := VObj {[ "data" := VArr [VNull] ∅ ]}; params := VObj ∅; user := U1 |}.

Definition networkError : error :=
  {| error_name := "MongoNetworkError"; error_code := VUndef;
     error_message := "connection lost" |}.

Definition duplicateError : error :=
  {| error_name := "MongoServerError"; error_code := VNum 11000;
     error_message := "E11000 duplicate key error collection" |}.

(** An error named [ValidationError] whose code is 11000. *)
Definition validationError11000 : error :=
  {| error_name := "ValidationError"; error_code := VNum 11000;
     error_message := "name: Path `name` is required." |}.

(** ** Properties *)

Section Properties.
Context `{Collaborators} {store : Type}.
Implicit Types (dbService : dbCall → store → settled * store).
Implicit Types (req : request) (s : store) (op : operation).

(** *** Runs *)

Lemma wp_run {A : Type} dbService (m : js A) Q s :
  wp m Q → Q (calls (run dbService m s)) (result (run dbService m s)).
Proof.
  revert Q s. induction m as [a|e|c k IH]; intros Q s Hwp; simpl in *; auto.
  destruct (dbService c s) as [r s']. simpl.
  apply (IH r (λ tr o, Q ((c, r) :: tr) o)), Hwp.
Qed.

Lemma wp_try_catch {A : Type} (m : js A) (h : error → A) Q :
  wp m (λ tr o, Q tr (inr (match o with inl e => h e | inr a => a end))) →
  wp (try_catch m h) Q.
Proof.
  revert Q. induction m as [a|e|c k IH]; intros Q; simpl.
  - trivial.
  - trivial.
  - intros Hwp r. apply IH, Hwp.
Qed.

(** A run of [try { m } catch (e) { return h e }] is the run of [m], with
    the exception it may end in turned into the answer of [h]. *)
Lemma run_try_catch {A : Type} dbService (m : js A) (h : error → A) s :
  run dbService (try_catch m h) s
  = Outcome (inr match result (run dbService m s) with
                 | inl e => h e
                 | inr a => a
                 end)
            (final (run dbService m s)) (calls (run dbService m s)).
Proof.
  revert s. induction m as [a|e|c k IH]; intros s; simpl; try done.
  destruct (dbService c s) as [r s']. by rewrite IH.
Qed.

Lemma handler_try_catch op req :
  handler op req = try_catch (tryBlock op req) (catchClause op).
Proof. by destruct op. Qed.

(** Every exception is caught: a handler always answers. *)
Lemma handler_answers dbService op req s :
  ∃ r, result (run dbService (handler op req) s) = inr r.
Proof. rewrite handler_try_catch, run_try_catch. simpl. eauto. Qed.

(** One step through a handler: the next read, branch or settled call. *)
Ltac js_step :=
  match goal with
  | |- wp (try_catch _ _) _ => apply wp_try_catch
  | |- context [match getProp ?v ?k with _ => _ end] =>
      destruct (getProp v k) eqn:?; simpl
  | |- context [match deleteProp ?v ?k with _ => _ end] =>
      destruct (deleteProp v k) eqn:?; simpl
  | |- context [stampEach ?data ?id] =>
      unfold stampEach, read, lift; destruct data; simpl
  | |- context [match stampAddedBy ?xs ?id with _ => _ end] =>
      destruct (stampAddedBy xs id) eqn:?; simpl
  | |- context [if ?b then _ else _] => destruct b eqn:?; simpl
  | |- ∀ r : settled, _ => intros [?|?]; simpl
  end.

Ltac js_steps := unfold read, lift; simpl; repeat js_step.

(** A call recorded by a run that made at most one. *)
Ltac one_call :=
  let Hin := fresh "Hin" in
  intros Hin; simpl in Hin;
  repeat match goal with
         | H : _ ∨ _ |- _ => destruct H
         | H : False |- _ => destruct H
         end;
  simplify_eq/=.

(** *** Reading properties *)

Lemma getProp_nullish v k : nullish v = true → ∃ e, getProp v k = inl e.
Proof. destruct v; simpl; try discriminate; eauto. Qed.

Lemma getProp_not_nullish v k : nullish v = false → ∃ x, getProp v k = inr x.
Proof. destruct v; simpl; try discriminate; intros _; repeat case_match; eauto. Qed.

Lemma getProp_receiver v k x : getProp v k = inr x → nullish v = false.
Proof. destruct v; simpl; try discriminate; done. Qed.

Lemma is_object_inv v :
  is_object v = true → (∃ xs named, v = VArr xs named) ∨ (∃ fs, v = VObj fs).
Proof. destruct v; try discriminate; eauto. Qed.

(** Only an array or an object has a property that is an array. *)
Lemma getProp_array_receiver v k xs named :
  getProp v k = inr (VArr xs named) → truthy v = true.
Proof.
  destruct v; simpl; try done; repeat case_match; try discriminate.
  unfold char_at. by case_match.
Qed.

(** *** Array indices are not names *)

Lemma pretty_N_go_letter x (acc : string) c k :
  letter c → acc ≠ String c k → pretty_N_go x acc ≠ String c k.
Proof.
  intros Hc. revert acc. induction (N.lt_wf_0 x) as [x _ IH]; intros acc Hacc.
  assert (x = 0 ∨ 0 < x)%N as [->|Hx] by lia.
  - by rewrite pretty_N_go_0.
  - rewrite pretty_N_go_step by done. apply IH.
    + by apply N.div_lt.
    + intros [= Hd _]. by apply (Hc (x `mod` 10)%N).
Qed.

Lemma pretty_nat_letter (i : nat) c k : letter c → pretty i ≠ String c k.
Proof.
  intros Hc. unfold pretty, pretty_nat, pretty, pretty_N. case_decide.
  - intros [= Hd _]. by apply (Hc 0%N).
  - by apply pretty_N_go_letter.
Qed.

Lemma indexed_letter xs c k : letter c → indexed xs !! String c k = None.
Proof.
  intros Hc. unfold indexed. apply not_elem_of_list_to_map_1.
  intros Hin. apply list_elem_of_fmap in Hin as [[k' x] [Hk Hin]].
  apply elem_of_lookup_imap in Hin as (i & y & [= -> ->] & _).
  simpl in Hk. symmetry in Hk. by apply pretty_nat_letter in Hk.
Qed.

Lemma array_index_letter c k n : letter c → array_index (String c k) n = None.
Proof.
  intros Hc. unfold array_index.
  destruct (list_find _ _) as [[i j]|] eqn:Hfind; [|done].
  apply list_find_Some in Hfind as (_ & Hj & _).
  by apply pretty_nat_letter in Hj.
Qed.

Lemma letter_a : letter "a"%char.
Proof. intros d. unfold pretty_N_char. by repeat case_match. Qed.

Lemma letter_u : letter "u"%char.
Proof. intros d. unfold pretty_N_char. by repeat case_match. Qed.

(** *** Updates: [addedBy] and [updatedBy] *)

Lemma spread_deleteProp v c k v' :
  letter c → deleteProp v (String c k) = inr v' →
  spread v' = delete (String c k) (spread v).
Proof.
  intros Hc. destruct v; simpl; intros [= <-]; simpl.
  - by rewrite delete_empty.
  - by rewrite delete_empty.
  - by rewrite delete_id by by apply indexed_letter.
  - rewrite delete_union. by rewrite (delete_id (indexed _)) by by apply indexed_letter.
  - done.
Qed.

Lemma stamped_union (m : obj) id :
  let data : obj := delete "updatedBy" (delete "addedBy" m) ∪ {[ "updatedBy" := id ]} in
  data !! "updatedBy" = Some id
  ∧ data !! "addedBy" = None
  ∧ ∀ k : string, k ≠ "addedBy" → k ≠ "updatedBy" → data !! k = m !! k.
Proof.
  simpl. split; [|split].
  - rewrite lookup_union_r by apply lookup_delete_eq. apply lookup_singleton_eq.
  - apply lookup_union_None. split.
    + rewrite lookup_delete_ne by done. apply lookup_delete_eq.
    + by rewrite lookup_singleton_ne.
  - intros k Ha Hu. rewrite lookup_union, lookup_singleton_ne by done.
    rewrite !lookup_delete_ne by done. by destruct (m !! k).
Qed.

Lemma stamped_insert (m : obj) id :
  let data : obj := <["updatedBy" := id]> (delete "updatedBy" (delete "addedBy" m)) in
  data !! "updatedBy" = Some id
  ∧ data !! "addedBy" = None
  ∧ ∀ k : string, k ≠ "addedBy" → k ≠ "updatedBy" → data !! k = m !! k.
Proof.
  simpl. split; [|split].
  - apply lookup_insert_eq.
  - rewrite lookup_insert_ne, lookup_delete_ne by done. apply lookup_delete_eq.
  - intros k Ha Hu. by rewrite lookup_insert_ne, !lookup_delete_ne.
Qed.

(** [updateData] either throws, or builds the update from the body and
    the caller's identity. *)
Lemma updateData_inv req :
  (∃ e, updateData req = Throw e)
  ∨ (∃ id, getProp (user req) "id" = inr id
       ∧ updateData req
         = Ret (delete "updatedBy" (delete "addedBy" (spread (body req)))
                ∪ {[ "updatedBy" := id ]})).
Proof.
  unfold updateData, read.
  destruct (deleteProp (body req) "addedBy") as [e|b1] eqn:H1; simpl; [eauto|].
  destruct (deleteProp b1 "updatedBy") as [e|b2] eqn:H2; simpl; [eauto|].
  destruct (getProp (user req) "id") as [e|id]; simpl; [eauto|].
  right. exists id. split; [done|].
  apply (spread_deleteProp _ _ _ _ letter_u) in H2.
  apply (spread_deleteProp _ _ _ _ letter_a) in H1.
  by rewrite H2, H1.
Qed.

(** With a body and a caller, [updateData] returns: the body without
    [addedBy] and [updatedBy], with the caller as [updatedBy]. *)
Lemma updateData_returns req id :
  nullish (body req) = false →
  getProp (user req) "id" = inr id →
  updateData req
  = Ret (<["updatedBy" := id]> (delete "updatedBy" (delete "addedBy" (spread (body req))))).
Proof.
  intros Hbody Hid.
  destruct (updateData_inv req) as [[e He]|(id' & Hid' & ->)].
  - unfold updateData, read in He. rewrite Hid in He.
    by destruct (body req).
  - rewrite Hid in Hid'. injection Hid' as <-.
    by rewrite insert_union_singleton_r by apply lookup_delete_eq.
Qed.

(** What every call of an update hands over. *)
Lemma update_calls_are_stamped dbService op req s c r :
  In op [PartialUpdateOrderItem; UpdateOrderItem; BulkUpdateOrderItem] →
  In (c, r) (calls (run dbService (handler op req) s)) →
  ∃ (data : obj) (id : value),
    updateOf c = Some (VObj data)
    ∧ getProp (user req) "id" = inr id
    ∧ data !! "updatedBy" = Some id
    ∧ data !! "addedBy" = None
    ∧ ∀ k : string, k ≠ "addedBy" → k ≠ "updatedBy" →
        data !! k = spread (clientUpdate op req) !! k.
Proof.
  intros Hop.
  apply (wp_run dbService (handler op req)
           (λ tr o, In (c, r) tr → ∃ (data : obj) (id : value),
              updateOf c = Some (VObj data)
              ∧ getProp (user req) "id" = inr id
              ∧ data !! "updatedBy" = Some id
              ∧ data !! "addedBy" = None
              ∧ ∀ k : string, k ≠ "addedBy" → k ≠ "updatedBy" →
                  data !! k = spread (clientUpdate op req) !! k)).
  simpl in Hop. destruct Hop as [<-|[<-|[<-|[]]]]; simpl.
  - unfold partialUpdateOrderItem, partialUpdateOrderItem_try.
    destruct (updateData_inv req) as [[e ->]|(id & Hid & ->)]; simpl; [by intros []|].
    js_steps; one_call; eexists _, id; (split; [reflexivity|]); (split; [done|]);
      apply stamped_union.
  - unfold updateOrderItem, updateOrderItem_try.
    destruct (updateData_inv req) as [[e ->]|(id & Hid & ->)]; simpl; [by intros []|].
    js_steps; one_call; eexists _, id; (split; [reflexivity|]); (split; [done|]);
      apply stamped_union.
  - unfold bulkUpdateOrderItem, bulkUpdateOrderItem_try.
    js_steps; one_call; eexists _, _; (split; [reflexivity|]); (split; [done|]);
      apply stamped_insert.
Qed.

(** The call of the partial and of the full update of one record. *)
Lemma update_by_id_call dbService op req s id pid :
  In op [PartialUpdateOrderItem; UpdateOrderItem] →
  nullish (body req) = false →
  getProp (user req) "id" = inr id →
  getProp (params req) "id" = inr pid →
  isValid (validateParamsWithJoi
             (VObj (<["updatedBy" := id]>
                      (delete "updatedBy" (delete "addedBy" (spread (body req))))))
             updateSchemaKeys) = true →
  ∃ r, calls (run dbService (handler op req) s)
       = [(findOneAndUpdateDocument OrderItem (VObj {[ "_id" := pid ]})
             (VObj (<["updatedBy" := id]>
                      (delete "updatedBy" (delete "addedBy" (spread (body req))))))
             (VObj {[ "new" := VBool true ]}), r)].
Proof.
  intros Hop Hbody Hid Hpid Hvalid.
  simpl in Hop. destruct Hop as [<-|[<-|[]]]; simpl.
  - unfold partialUpdateOrderItem, partialUpdateOrderItem_try, read.
    rewrite (updateData_returns req id Hbody Hid). simpl. rewrite Hvalid, Hpid. simpl.
    destruct (dbService _ s) as [[v|e] s']; simpl.
    + exists (Resolved v). by destruct (truthy v).
    + by exists (Rejected e).
  - unfold updateOrderItem, updateOrderItem_try, read.
    rewrite (updateData_returns req id Hbody Hid). simpl. rewrite Hvalid, Hpid. simpl.
    destruct (dbService _ s) as [[v|e] s']; simpl.
    + exists (Resolved v). by destruct (truthy v).
    + by exists (Rejected e).
Qed.

(** The call of the bulk update. *)
Lemma bulkUpdate_call dbService req s d id :
  getProp (body req) "data" = inr d →
  is_object d = true →
  getProp (user req) "id" = inr id →
  ∃ f r,
    getProp (body req) "filter" = inr f
    ∧ calls (run dbService (bulkUpdateOrderItem req) s)
      = [(bulkUpdate OrderItem
            (VObj (if truthy (body req) && is_object f then spread f else ∅))
            (VObj (<["updatedBy" := id]>
                     (delete "updatedBy" (delete "addedBy" (spread d))))), r)].
Proof.
  intros Hd Hobj Hid.
  destruct (getProp_not_nullish (body req) "filter" (getProp_receiver _ _ _ Hd)) as [f Hf].
  exists f. unfold bulkUpdateOrderItem, bulkUpdateOrderItem_try, read.
  rewrite Hf, Hd, Hid.
  destruct (truthy (body req)); simpl; rewrite Hobj; simpl;
    destruct (dbService _ s) as [[v|e] s']; simpl;
    try (exists (Resolved v); by destruct (truthy v));
    by exists (Rejected e).
Qed.

(** C1.  The update operations strip and stamp, and do so on the call
    they make.  For [partialUpdateOrderItem], [updateOrderItem] and
    [bulkUpdateOrderItem], every request and every data-access layer:
    each call the handler makes is an update whose data has no [addedBy],
    has the caller's identity [req.user.id] as [updatedBy], and otherwise
    has the properties of the payload the client sent.  And the call is
    made: the partial and the full update of a request with a body, a
    caller and a path parameter [id], whose stripped and stamped data the
    validation layer accepts, make exactly one call,
    [findOneAndUpdateDocument] on [{_id: id}] with that data; the bulk
    update of a request whose [data] is an object makes exactly one call,
    [bulkUpdate] with the stripped and stamped [data]. *)
Theorem update_strips_and_stamps dbService req s :
  (∀ op c r,
     In op [PartialUpdateOrderItem; UpdateOrderItem; BulkUpdateOrderItem] →
     In (c, r) (calls (run dbService (handler op req) s)) →
     ∃ (data : obj) (id : value),
       updateOf c = Some (VObj data)
       ∧ getProp (user req) "id" = inr id
       ∧ data !! "updatedBy" = Some id
       ∧ data !! "addedBy" = None
       ∧ ∀ k : string, k ≠ "addedBy" → k ≠ "updatedBy" →
           data !! k = spread (clientUpdate op req) !! k)
  ∧ (∀ op id pid,
       In op [PartialUpdateOrderItem; UpdateOrderItem] →
       nullish (body req) = false →
       getProp (user req) "id" = inr id →
       getProp (params req) "id" = inr pid →
       isValid (validateParamsWithJoi
                  (VObj (<["updatedBy" := id]>
                           (delete "updatedBy" (delete "addedBy" (spread (body req))))))
                  updateSchemaKeys) = true →
       ∃ r, calls (run dbService (handler op req) s)
            = [(findOneAndUpdateDocument OrderItem (VObj {[ "_id" := pid ]})
                  (VObj (<["updatedBy" := id]>
                           (delete "updatedBy" (delete "addedBy" (spread (body req))))))
                  (VObj {[ "new" := VBool true ]}), r)])
  ∧ (∀ d id,
       getProp (body req) "data" = inr d →
       is_object d = true →
       getProp (user req) "id" = inr id →
       ∃ f r,
         getProp (body req) "filter" = inr f
         ∧ calls (run dbService (handler BulkUpdateOrderItem req) s)
           = [(bulkUpdate OrderItem
                 (VObj (if truthy (body req) && is_object f then spread f else ∅))
                 (VObj (<["updatedBy" := id]>
                          (delete "updatedBy" (delete "addedBy" (spread d))))), r)]).
Proof.
  split; [|split].
  - intros op c r. apply update_calls_are_stamped.
  - intros op id pid. apply update_by_id_call.
  - intros d id. apply bulkUpdate_call.
Qed.

(** *** Creation: [addedBy] *)

Lemma setProp_addedBy_object x id :
  is_object x = true →
  ∃ x', setProp x "addedBy" id = inr x' ∧ getProp x' "addedBy" = inr id.
Proof.
  intros [(xs & named & ->)|(fs & ->)]%is_object_inv; simpl; eexists; (split; [done|]).
  - simpl. rewrite (array_index_letter _ _ _ letter_a). by rewrite lookup_insert_eq.
  - simpl. by rewrite lookup_insert_eq.
Qed.

Lemma stampAddedBy_objects xs id :
  Forall (λ x, is_object x = true) xs →
  ∃ xs', stampAddedBy xs id = inr xs'
    ∧ Forall2 (λ x x', setProp x "addedBy" id = inr x') xs xs'
    ∧ Forall (λ x', getProp x' "addedBy" = inr id) xs'.
Proof.
  induction 1 as [|x xs Hx _ (xs' & Hxs & IH2 & IH)].
  - exists []. by repeat constructor.
  - destruct (setProp_addedBy_object x id Hx) as (x' & Hset & Hget).
    exists (x' :: xs'). simpl. rewrite Hset, Hxs. by repeat constructor.
Qed.

(** What reaches the loop of [bulkInsertOrderItem] when the guard of line
    144 lets the request through: an array, or [undefined]. *)
Lemma bulkInsert_data_shape req d :
  getProp (body req) "data" = inr d →
  (if truthy (body req) then negb (isArray d) || (array_length d <? 1) else false)
  = false →
  isArray d = true ∨ d = VUndef.
Proof.
  intros Hd. destruct (truthy (body req)) eqn:Hbody.
  - intros [Harr _]%orb_false_elim. left. by destruct (isArray d).
  - intros _. right. revert Hd Hbody.
    destruct (body req) as [| |b|n|str|xs named|fs]; simpl; try done.
    + by intros [= <-].
    + by intros [= <-].
    + intros Hd Hstr. apply negb_false_iff, String.eqb_eq in Hstr as ->.
      simpl in Hd. by injection Hd as <-.
Qed.

(** C2.  Create calls by an authenticated caller, whose identity
    [req.user.id] reads as [id].  [addOrderItem] with a payload the
    validation layer accepts passes exactly one document to the data-access
    layer, built from the fields of the body with [addedBy] set to [id],
    whatever [addedBy] the body had.  [bulkInsertOrderItem] with a
    non-empty array of objects as [data], for an [id] that is present
    (truthy), passes exactly one array, each element of which is the
    submitted element with [addedBy] set to [id]. *)
Theorem create_stamps_addedBy dbService req s id :
  getProp (user req) "id" = inr id →
  (isValid (validateParamsWithJoi (body req) schemaKeys) = true →
   ∃ (fields : obj) r,
     calls (run dbService (addOrderItem req) s)
     = [(createDocument OrderItem (new OrderItem fields), r)]
     ∧ fields !! "addedBy" = Some id
     ∧ ∀ k : string, k ≠ "addedBy" → fields !! k = spread (body req) !! k)
  ∧ (∀ xs named,
       getProp (body req) "data" = inr (VArr xs named) →
       xs ≠ [] →
       Forall (λ x, is_object x = true) xs →
       truthy id = true →
       ∃ xs' r,
         calls (run dbService (bulkInsertOrderItem req) s)
         = [(bulkInsert OrderItem (VArr xs' named), r)]
         ∧ Forall2 (λ x x', setProp x "addedBy" id = inr x') xs xs'
         ∧ Forall (λ x', getProp x' "addedBy" = inr id) xs').
Proof.
  intros Hid. split.
  - intros Hvalid. unfold addOrderItem, addOrderItem_try, read.
    rewrite Hvalid, Hid. simpl.
    destruct (dbService _ s) as [[v|e] s']; simpl; eexists _, _;
      (split; [reflexivity|]); (split; [apply lookup_insert_eq|]);
      intros k Hk; by rewrite lookup_insert_ne.
  - intros xs named Hdata Hne Hobj Htruthy.
    destruct (stampAddedBy_objects xs id Hobj) as (xs' & Hstamp & Hset & Hget).
    exists xs'. unfold bulkInsertOrderItem, bulkInsertOrderItem_try, read.
    rewrite (getProp_array_receiver _ _ _ _ Hdata), Hdata. simpl.
    assert ((Z.of_nat (length xs) <? 1) = false) as ->.
    { apply Z.ltb_ge. destruct xs; [done|]. simpl length. lia. }
    simpl. rewrite Hid. simpl. rewrite Htruthy. simpl. rewrite Hstamp. simpl.
    destruct (dbService _ s) as [[v|e] s']; simpl; eexists; done.
Qed.

(** *** The catch clauses *)

(** C3, amended: the failure response is bare in four operations, not in
    two.  For every operation, when the [try] block ends by throwing an
    error that is neither a validation error nor a duplicate-key condition,
    the handler answers with the generic failure response, which carries
    the error message in every operation except [softDeleteManyOrderItem],
    [deleteManyOrderItem], [softDeleteOrderItem] and [deleteOrderItem],
    where it is bare. *)
Theorem failure_response_message dbService op req s e :
  result (run dbService (tryBlock op req) s) = inl e →
  String.eqb (error_name e) "ValidationError" = false →
  duplicateKey e = false →
  result (run dbService (handler op req) s)
  = inr (failureResponse
           (if bareFailure op then None else Some (VStr (error_message e)))).
Proof.
  intros He Hname Hdup. rewrite handler_try_catch, run_try_catch. simpl.
  rewrite He. destruct op; simpl; try done; unfold catchStore; by rewrite Hname, Hdup.
Qed.

(** C5, amended: the name of the error is tested before its code.  For
    [addOrderItem], [bulkInsertOrderItem] and [updateOrderItem], when the
    data-access call rejects with an error whose code is 11000 and whose
    name is not [ValidationError], the handler answers with the duplicate
    response [isDuplicate()]. *)
Theorem duplicate_key_response dbService op req s c e :
  In op [AddOrderItem; BulkInsertOrderItem; UpdateOrderItem] →
  In (c, Rejected e) (calls (run dbService (handler op req) s)) →
  error_code e = VNum 11000 →
  error_name e ≠ "ValidationError" →
  result (run dbService (handler op req) s) = inr isDuplicate.
Proof.
  intros Hop Hin Hcode Hname%String.eqb_neq.
  assert (catchStore e = isDuplicate) as Hcatch.
  { unfold catchStore, duplicateKey. rewrite Hname, Hcode. simpl.
    by rewrite looseEq_numbers. }
  assert (result (run dbService (tryBlock op req) s) = inl e) as Htry.
  { revert Hin. rewrite handler_try_catch, run_try_catch. simpl.
    apply (wp_run dbService (tryBlock op req)
             (λ tr o, In (c, Rejected e) tr → o = inl e)).
    simpl in Hop. destruct Hop as [<-|[<-|[<-|[]]]]; simpl.
    - unfold addOrderItem_try. js_steps; one_call; done.
    - unfold bulkInsertOrderItem_try. js_steps; one_call; done.
    - unfold updateOrderItem_try.
      destruct (updateData_inv req) as [[e' ->]|(id & Hid & ->)]; simpl; [by intros []|].
      js_steps; one_call; done. }
  rewrite handler_try_catch, run_try_catch. simpl. rewrite Htry.
  simpl in Hop. destruct Hop as [<-|[<-|[<-|[]]]]; simpl; by rewrite Hcatch.
Qed.

(** *** Checks before the store *)

(** C4.  For [softDeleteManyOrderItem] and [deleteManyOrderItem], on a
    request with a body: when [req.body.ids] is absent ([undefined]), is
    not an array, or is an empty array, the handler answers [badRequest()]
    and makes no call to the data-access layer. *)
Theorem bulk_by_ids_bad_request dbService op req s ids :
  In op [SoftDeleteManyOrderItem; DeleteManyOrderItem] →
  getProp (body req) "ids" = inr ids →
  ids = VUndef ∨ isArray ids = false ∨ (∃ named, ids = VArr [] named) →
  result (run dbService (handler op req) s) = inr badRequest
  ∧ calls (run dbService (handler op req) s) = [].
Proof.
  intros Hop Hids Hbad.
  assert (negb (truthy ids) || negb (isArray ids) || (array_length ids <? 1) = true)
    as Hguard.
  { destruct Hbad as [->|[Harr|[named ->]]]; [done| |done].
    rewrite Harr. simpl. by rewrite orb_true_r. }
  destruct Hop as [<-|[<-|[]]]; simpl.
  - unfold softDeleteManyOrderItem, softDeleteManyOrderItem_try, read.
    rewrite Hids. simpl. rewrite Hguard. done.
  - unfold deleteManyOrderItem, deleteManyOrderItem_try, read.
    rewrite Hids. simpl. rewrite Hguard. done.
Qed.

(** C6.  [getOrderItem] on a request with the path parameter [id]: when
    [ObjectID.isValid] rejects [id], the handler answers
    [invalidObjectId()] and makes no call; when it accepts [id], the
    handler makes exactly one call, the query for the document with that
    [_id], and answers with the record when the call resolves with one,
    with [recordNotFound()] when it resolves with none, and with the
    failure response when it rejects. *)
Theorem getOrderItem_checks_id dbService req s id :
  getProp (params req) "id" = inr id →
  (ObjectID_isValid id = false →
     result (run dbService (getOrderItem req) s) = inr invalidObjectId
     ∧ calls (run dbService (getOrderItem req) s) = [])
  ∧ (ObjectID_isValid id = true →
     ∃ r, calls (run dbService (getOrderItem req) s)
          = [(getSingleDocument OrderItem (VObj {[ "_id" := id ]}) (VObj ∅), r)]
        ∧ result (run dbService (getOrderItem req) s)
          = inr match r with
                | Resolved v => if truthy v then ok v else recordNotFound
                | Rejected e => failureResponse (Some (VStr (error_message e)))
                end).
Proof.
  intros Hid. unfold getOrderItem, getOrderItem_try, read. rewrite Hid. simpl.
  split; intros ->; simpl; [done|].
  destruct (dbService _ s) as [[v|e] s']; simpl.
  - exists (Resolved v). by destruct (truthy v).
  - by exists (Rejected e).
Qed.

(** *** Outcomes of the store call *)

(** A call that resolved with a falsy value is answered "not found". *)
Lemma falsy_result_is_not_found dbService op req s c v :
  In op [SoftDeleteOrderItem; PartialUpdateOrderItem; UpdateOrderItem;
         DeleteOrderItem; BulkUpdateOrderItem; SoftDeleteManyOrderItem] →
  In (c, Resolved v) (calls (run dbService (handler op req) s)) →
  truthy v = false →
  result (run dbService (handler op req) s) = inr recordNotFound.
Proof.
  intros Hop Hin Hv. revert Hin.
  apply (wp_run dbService (handler op req)
           (λ tr o, In (c, Resolved v) tr → o = inr recordNotFound)).
  simpl in Hop.
  destruct Hop as [<-|[<-|[<-|[<-|[<-|[<-|[]]]]]]]; simpl.
  - unfold softDeleteOrderItem, softDeleteOrderItem_try.
    js_steps; one_call; rewrite ?Hv in *; simpl in *; congruence.
  - unfold partialUpdateOrderItem, partialUpdateOrderItem_try, updateData.
    js_steps; one_call; rewrite ?Hv in *; simpl in *; congruence.
  - unfold updateOrderItem, updateOrderItem_try, updateData.
    js_steps; one_call; rewrite ?Hv in *; simpl in *; congruence.
  - unfold deleteOrderItem, deleteOrderItem_try.
    js_steps; one_call; rewrite ?Hv in *; simpl in *; congruence.
  - unfold bulkUpdateOrderItem, bulkUpdateOrderItem_try.
    js_steps; one_call; rewrite ?Hv in *; simpl in *; congruence.
  - unfold softDeleteManyOrderItem, softDeleteManyOrderItem_try.
    js_steps; one_call; rewrite ?Hv in *; simpl in *; congruence.
Qed.

(** The one call a run made decides the answer. *)
Lemma one_call_not_found dbService op req s c :
  In op [SoftDeleteOrderItem; PartialUpdateOrderItem; UpdateOrderItem;
         DeleteOrderItem; BulkUpdateOrderItem; SoftDeleteManyOrderItem] →
  (∃ r, calls (run dbService (handler op req) s) = [(c, r)]) →
  ∃ r, calls (run dbService (handler op req) s) = [(c, r)]
     ∧ ∀ v, r = Resolved v → truthy v = false →
         result (run dbService (handler op req) s) = inr recordNotFound.
Proof.
  intros Hop [r Hcalls]. exists r. split; [done|]. intros v -> Hv.
  apply (falsy_result_is_not_found dbService op req s c v Hop); [|done].
  rewrite Hcalls. by left.
Qed.

(** The calls of the soft delete and of the delete of one record, and of
    the soft delete of many. *)
Lemma softDelete_call dbService req s pid :
  getProp (params req) "id" = inr pid →
  ∃ r, calls (run dbService (handler SoftDeleteOrderItem req) s)
       = [(findOneAndUpdateDocument OrderItem (VObj {[ "_id" := pid ]})
             (VObj {[ "isDeleted" := VBool true ]}) (VObj {[ "new" := VBool true ]}), r)].
Proof.
  intros Hpid. simpl. unfold softDeleteOrderItem, softDeleteOrderItem_try, read.
  rewrite Hpid. simpl. destruct (dbService _ s) as [[v|e] s']; simpl.
  - exists (Resolved v). by destruct (truthy v).
  - by exists (Rejected e).
Qed.

Lemma delete_call dbService req s pid :
  getProp (params req) "id" = inr pid →
  ∃ r, calls (run dbService (handler DeleteOrderItem req) s)
       = [(findOneAndDeleteDocument OrderItem (VObj {[ "_id" := pid ]}), r)].
Proof.
  intros Hpid. simpl. unfold deleteOrderItem, deleteOrderItem_try, read.
  rewrite Hpid. simpl. destruct (dbService _ s) as [[v|e] s']; simpl.
  - exists (Resolved v). by destruct (truthy v).
  - by exists (Rejected e).
Qed.

Lemma softDeleteMany_call dbService req s x xs named :
  getProp (body req) "ids" = inr (VArr (x :: xs) named) →
  ∃ r, calls (run dbService (handler SoftDeleteManyOrderItem req) s)
       = [(bulkUpdate OrderItem
             (VObj {[ "_id" := VObj {[ "$in" := VArr (x :: xs) named ]} ]})
             (VObj {[ "isDeleted" := VBool true ]}), r)].
Proof.
  intros Hids.
  assert (negb (truthy (VArr (x :: xs) named)) || negb (isArray (VArr (x :: xs) named))
          || (array_length (VArr (x :: xs) named) <? 1) = false) as Hguard.
  { apply Z.ltb_ge. simpl. lia. }
  simpl. unfold softDeleteManyOrderItem, softDeleteManyOrderItem_try, read. rewrite Hids.
  unfold lift. cbn [bind]. rewrite Hguard. simpl.
  destruct (dbService _ s) as [[v|e] s']; simpl.
  - exists (Resolved v). by destruct (truthy v).
  - by exists (Rejected e).
Qed.

(** C7, amended: the no-match sentinel is a falsy value; an empty array or
    object is a result.  For [softDeleteOrderItem],
    [partialUpdateOrderItem], [updateOrderItem], [deleteOrderItem],
    [bulkUpdateOrderItem] and [softDeleteManyOrderItem]: the handler makes
    its call (the soft delete and the delete for any path parameter [id];
    the two updates for a body, a caller and an [id] whose data the
    validation layer accepts; the bulk update for a [data] that is an
    object; the soft delete of many for a non-empty array of ids), and
    when that call resolves with a falsy value ([null], [undefined], [0],
    the empty string, [false]) the answer is [recordNotFound()], a
    response and not an exception nor the failure response. *)
Theorem no_match_is_not_found dbService req s :
  (∀ op c v,
     In op [SoftDeleteOrderItem; PartialUpdateOrderItem; UpdateOrderItem;
            DeleteOrderItem; BulkUpdateOrderItem; SoftDeleteManyOrderItem] →
     In (c, Resolved v) (calls (run dbService (handler op req) s)) →
     truthy v = false →
     result (run dbService (handler op req) s) = inr recordNotFound)
  ∧ (∀ pid,
       getProp (params req) "id" = inr pid →
       (∃ r, calls (run dbService (handler SoftDeleteOrderItem req) s)
             = [(findOneAndUpdateDocument OrderItem (VObj {[ "_id" := pid ]})
                   (VObj {[ "isDeleted" := VBool true ]})
                   (VObj {[ "new" := VBool true ]}), r)]
           ∧ ∀ v, r = Resolved v → truthy v = false →
               result (run dbService (handler SoftDeleteOrderItem req) s)
               = inr recordNotFound)
       ∧ (∃ r, calls (run dbService (handler DeleteOrderItem req) s)
               = [(findOneAndDeleteDocument OrderItem (VObj {[ "_id" := pid ]}), r)]
             ∧ ∀ v, r = Resolved v → truthy v = false →
                 result (run dbService (handler DeleteOrderItem req) s)
                 = inr recordNotFound))
  ∧ (∀ op id pid,
       In op [PartialUpdateOrderItem; UpdateOrderItem] →
       nullish (body req) = false →
       getProp (user req) "id" = inr id →
       getProp (params req) "id" = inr pid →
       isValid (validateParamsWithJoi
                  (VObj (<["updatedBy" := id]>
                           (delete "updatedBy" (delete "addedBy" (spread (body req))))))
                  updateSchemaKeys) = true →
       ∃ r, calls (run dbService (handler op req) s)
            = [(findOneAndUpdateDocument OrderItem (VObj {[ "_id" := pid ]})
                  (VObj (<["updatedBy" := id]>
                           (delete "updatedBy" (delete "addedBy" (spread (body req))))))
                  (VObj {[ "new" := VBool true ]}), r)]
          ∧ ∀ v, r = Resolved v → truthy v = false →
              result (run dbService (handler op req) s) = inr recordNotFound)
  ∧ (∀ d id,
       getProp (body req) "data" = inr d →
       is_object d = true →
       getProp (user req) "id" = inr id →
       ∃ f r,
         getProp (body req) "filter" = inr f
         ∧ calls (run dbService (handler BulkUpdateOrderItem req) s)
           = [(bulkUpdate OrderItem
                 (VObj (if truthy (body req) && is_object f then spread f else ∅))
                 (VObj (<["updatedBy" := id]>
                          (delete "updatedBy" (delete "addedBy" (spread d))))), r)]
         ∧ ∀ v, r = Resolved v → truthy v = false →
             result (run dbService (handler BulkUpdateOrderItem req) s)
             = inr recordNotFound)
  ∧ (∀ x xs named,
       getProp (body req) "ids" = inr (VArr (x :: xs) named) →
       ∃ r, calls (run dbService (handler SoftDeleteManyOrderItem req) s)
            = [(bulkUpdate OrderItem
                  (VObj {[ "_id" := VObj {[ "$in" := VArr (x :: xs) named ]} ]})
                  (VObj {[ "isDeleted" := VBool true ]}), r)]
          ∧ ∀ v, r = Resolved v → truthy v = false →
              result (run dbService (handler SoftDeleteManyOrderItem req) s)
              = inr recordNotFound).
Proof.
  split; [|split; [|split; [|split]]].
  - intros op c v. apply falsy_result_is_not_found.
  - intros pid Hpid. split.
    + apply one_call_not_found; [simpl; tauto|]. by apply softDelete_call.
    + apply one_call_not_found; [simpl; tauto|]. by apply delete_call.
  - intros op id pid Hop Hbody Hid Hpid Hvalid.
    apply one_call_not_found.
    + simpl in *. tauto.
    + by apply (update_by_id_call dbService op req s id pid).
  - intros d id Hd Hobj Hid.
    destruct (bulkUpdate_call dbService req s d id Hd Hobj Hid) as (f & r & Hf & Hcalls).
    exists f.
    destruct (one_call_not_found dbService BulkUpdateOrderItem req s _
                ltac:(simpl; tauto) (ex_intro _ r Hcalls)) as (r' & Hcalls' & Hnf).
    exists r'. done.
  - intros x xs named Hids.
    apply one_call_not_found; [simpl; tauto|]. by apply softDeleteMany_call.
Qed.

(** C8.  [findAllOrderItem] on a body that passes the filter validation
    and whose [isCountOnly] is truthy: the handler makes exactly one call,
    [countDocument] with the query of the body, never [getAllDocuments],
    and when that call resolves with [n] it answers [ok] with the data
    [{totalRecords: n}]. *)
Theorem findAll_count_only dbService req s flag :
  isValid (validateFilterWithJoi (body req) findFilterKeys (Some OrderItem_schema_obj))
    = true →
  getProp (body req) "isCountOnly" = inr flag →
  truthy flag = true →
  ∃ q r,
    getProp (body req) "query" = inr q
    ∧ calls (run dbService (findAllOrderItem req) s)
      = [(countDocument OrderItem (VObj (if is_object q then spread q else ∅)), r)]
    ∧ (∀ n, r = Resolved n →
         result (run dbService (findAllOrderItem req) s)
         = inr (ok (VObj {[ "totalRecords" := n ]})))
    ∧ ∀ c r', In (c, r') (calls (run dbService (findAllOrderItem req) s)) →
        ∀ m query options, c ≠ getAllDocuments m query options.
Proof.
  intros Hvalid Hflag Htruthy.
  destruct (getProp_not_nullish (body req) "query") as [q Hq].
  { eapply getProp_receiver, Hflag. }
  exists q. unfold findAllOrderItem, findAllOrderItem_try, read.
  rewrite Hvalid, Hq, Hflag. simpl. rewrite Htruthy. simpl.
  destruct (dbService _ s) as [[v|e] s']; simpl.
  - eexists. split; [done|]. split; [reflexivity|]. split.
    + by intros n [= ->].
    + intros c r' [[= <- <-]|[]]. done.
  - eexists. split; [done|]. split; [reflexivity|]. split.
    + by intros n [=].
    + intros c r' [[= <- <-]|[]]. done.
Qed.

(** *** Calls of the data-access layer *)

(** An answer before the store call comes from a check of the source that
    failed. *)
Lemma answersBeforeStore_check op req :
  answersBeforeStore op req = true →
  match op with
  | AddOrderItem =>
      isValid (validateParamsWithJoi (body req) schemaKeys) = false
  | FindAllOrderItem =>
      isValid (validateFilterWithJoi (body req) findFilterKeys (Some OrderItem_schema_obj))
      = false
  | GetOrderItemCount =>
      isValid (validateFilterWithJoi (body req) findFilterKeys None) = false
  | SoftDeleteManyOrderItem | DeleteManyOrderItem =>
      ∃ ids, getProp (body req) "ids" = inr ids
        ∧ negb (truthy ids) || negb (isArray ids) || (array_length ids <? 1) = true
  | BulkInsertOrderItem =>
      ∃ d, getProp (body req) "data" = inr d
        ∧ truthy (body req) && (negb (isArray d) || (array_length d <? 1)) = true
  | BulkUpdateOrderItem =>
      ∃ d, getProp (body req) "data" = inr d ∧ is_object d = false
  | SoftDeleteOrderItem | DeleteOrderItem => False
  | PartialUpdateOrderItem | UpdateOrderItem =>
      ∃ data, updateData req = Ret data
        ∧ isValid (validateParamsWithJoi (VObj data) updateSchemaKeys) = false
  | GetOrderItem =>
      ∃ id, getProp (params req) "id" = inr id ∧ ObjectID_isValid id = false
  end.
Proof.
  unfold answersBeforeStore. destruct op; simpl.
  - unfold addOrderItem_try. js_steps; try done; intros _; by apply negb_true_iff.
  - unfold findAllOrderItem_try. js_steps; try done; intros _; by apply negb_true_iff.
  - unfold getOrderItemCount_try. js_steps; try done; intros _; by apply negb_true_iff.
  - unfold softDeleteManyOrderItem_try. js_steps; try done; eauto.
  - unfold bulkInsertOrderItem_try.
    js_steps; try done; intros _; eexists; (split; [done|]); simpl in *; done.
  - unfold bulkUpdateOrderItem_try. js_steps; try done; eauto.
  - unfold deleteManyOrderItem_try. js_steps; try done; eauto.
  - unfold softDeleteOrderItem_try. js_steps; done.
  - unfold partialUpdateOrderItem_try.
    destruct (updateData_inv req) as [[e ->]|(id & Hid & ->)]; simpl; [done|].
    js_steps; try done; intros _; eexists; (split; [done|]); by apply negb_true_iff.
  - unfold updateOrderItem_try.
    destruct (updateData_inv req) as [[e ->]|(id & Hid & ->)]; simpl; [done|].
    js_steps; try done; intros _; eexists; (split; [done|]); by apply negb_true_iff.
  - unfold getOrderItem_try.
    js_steps; try done; intros _; eexists; (split; [done|]); by apply negb_true_iff.
  - unfold deleteOrderItem_try. js_steps; done.
Qed.

Lemma catchClause_not_checkFailure op e : checkFailure (catchClause op e) = false.
Proof.
  destruct op; simpl; try done; unfold catchStore; by repeat case_match.
Qed.

Ltac shape := repeat split; intros; simplify_eq/=; done || lia.

(** The [try] block of a handler answers a failed check, or throws, or
    makes one call and none after it. *)
Lemma tryBlock_calls op req :
  wp (tryBlock op req)
    (λ tr o,
       (length tr ≤ 1)%nat
       ∧ (∀ r, o = inr r → checkFailure r = true → tr = [])
       ∧ (answersBeforeStore op req = false → raisesBeforeStore op req = false →
          length tr = 1%nat)
       ∧ (∀ r, tryBlock op req = Ret r → checkFailure r = true)).
Proof.
  unfold answersBeforeStore, raisesBeforeStore.
  destruct op; simpl.
  - unfold addOrderItem_try. js_steps; shape.
  - unfold findAllOrderItem_try. js_steps; shape.
  - unfold getOrderItemCount_try. js_steps; shape.
  - unfold softDeleteManyOrderItem_try. js_steps; shape.
  - unfold bulkInsertOrderItem_try. js_steps; shape.
  - unfold bulkUpdateOrderItem_try. js_steps; shape.
  - unfold deleteManyOrderItem_try. js_steps; shape.
  - unfold softDeleteOrderItem_try. js_steps; shape.
  - unfold partialUpdateOrderItem_try.
    destruct (updateData_inv req) as [[e ->]|(id & Hid & ->)]; simpl; [shape|].
    js_steps; shape.
  - unfold updateOrderItem_try.
    destruct (updateData_inv req) as [[e ->]|(id & Hid & ->)]; simpl; [shape|].
    js_steps; shape.
  - unfold getOrderItem_try. js_steps; shape.
  - unfold deleteOrderItem_try. js_steps; shape.
Qed.

(** C9, amended: an exception raised before the store call leaves the
    handler with no call although every check passed.  For every handler,
    request and data-access layer: the handler makes at most one call; it
    makes none when it answers [badRequest], [inValidParam] or
    [invalidObjectId]; it makes exactly one when its [try] block neither
    answers before the store call nor throws before it; and an answer
    before the store call is always one of those three responses. *)
Theorem at_most_one_store_call dbService op req s :
  (length (calls (run dbService (handler op req) s)) ≤ 1)%nat
  ∧ (∀ r, result (run dbService (handler op req) s) = inr r →
          checkFailure r = true →
          calls (run dbService (handler op req) s) = [])
  ∧ (answersBeforeStore op req = false → raisesBeforeStore op req = false →
     length (calls (run dbService (handler op req) s)) = 1%nat)
  ∧ (∀ r, tryBlock op req = Ret r → checkFailure r = true).
Proof.
  rewrite handler_try_catch, run_try_catch. simpl.
  pose proof (wp_run dbService _ _ s (tryBlock_calls op req)) as (Hle & Hzero & Hone & Hret).
  repeat split; try done.
  intros r [= <-] Hr.
  destruct (result (run dbService (tryBlock op req) s)) as [e|r] eqn:Hres.
  - by rewrite catchClause_not_checkFailure in Hr.
  - by apply (Hzero r).
Qed.

(** *** Soft deletion *)

(** C10.  For [softDeleteOrderItem] and [softDeleteManyOrderItem]: the
    update body of each call the handler makes is exactly
    [{isDeleted: true}]; it has no [updatedBy] nor any other field, so
    applying it to a record leaves every field other than [isDeleted] as
    it was. *)
Theorem soft_delete_writes_only_isDeleted dbService op req s c r :
  In op [SoftDeleteOrderItem; SoftDeleteManyOrderItem] →
  In (c, r) (calls (run dbService (handler op req) s)) →
  ∃ u : obj,
    updateOf c = Some (VObj u)
    ∧ u = {[ "isDeleted" := VBool true ]}
    ∧ u !! "updatedBy" = None
    ∧ ∀ (record : obj) (k : string),
        k ≠ "isDeleted" → applyUpdate u record !! k = record !! k.
Proof.
  intros Hop.
  assert (∀ (record : obj) (k : string), k ≠ "isDeleted" →
            applyUpdate {[ "isDeleted" := VBool true ]} record !! k = record !! k)
    as Hframe.
  { intros record k Hk. unfold applyUpdate.
    rewrite lookup_union_r; [done|]. by rewrite lookup_singleton_ne. }
  apply (wp_run dbService (handler op req)
           (λ tr o, In (c, r) tr → ∃ u : obj, updateOf c = Some (VObj u)
              ∧ u = {[ "isDeleted" := VBool true ]} ∧ u !! "updatedBy" = None
              ∧ ∀ (record : obj) (k : string),
                  k ≠ "isDeleted" → applyUpdate u record !! k = record !! k)).
  simpl in Hop. destruct Hop as [<-|[<-|[]]]; simpl.
  - unfold softDeleteOrderItem, softDeleteOrderItem_try.
    js_steps; one_call; eexists; (split; [reflexivity|]); done.
  - unfold softDeleteManyOrderItem, softDeleteManyOrderItem_try.
    js_steps; one_call; eexists; (split; [reflexivity|]); done.
Qed.

(** *** Exceptions of the engine *)

Lemma getProp_TypeError v k e : getProp v k = inl e → isTypeError e.
Proof. destruct v; simpl; repeat case_match; intros [= <-]; done. Qed.

Lemma deleteProp_TypeError v k e : deleteProp v k = inl e → isTypeError e.
Proof. destruct v; simpl; intros [= <-]; done. Qed.

Lemma setProp_TypeError v k x e : setProp v k x = inl e → isTypeError e.
Proof. destruct v; simpl; intros [= <-]; done. Qed.

Lemma stampAddedBy_TypeError xs id e : stampAddedBy xs id = inl e → isTypeError e.
Proof.
  induction xs as [|x xs IH]; simpl; [done|].
  destruct (setProp x "addedBy" id) eqn:Hset; [intros [= <-]; by eapply setProp_TypeError|].
  destruct (stampAddedBy xs id); [intros [= <-]; by apply IH|done].
Qed.

Lemma getProp_truthy v k e : truthy v = true → getProp v k = inl e → False.
Proof. destruct v; simpl; try done; intros _; repeat case_match; done. Qed.

Lemma updateData_TypeError req e : updateData req = Throw e → isTypeError e.
Proof.
  unfold updateData, read.
  destruct (deleteProp (body req) "addedBy") as [e1|b1] eqn:H1; simpl.
  { intros [= <-]. by eapply deleteProp_TypeError. }
  destruct (deleteProp b1 "updatedBy") as [e2|b2] eqn:H2; simpl.
  { intros [= <-]. by eapply deleteProp_TypeError. }
  destruct (getProp (user req) "id") as [e3|id] eqn:H3; simpl; [|done].
  intros [= <-]. by eapply getProp_TypeError.
Qed.

(** A [TypeError] is answered with the failure response by every catch
    clause. *)
Lemma catchClause_TypeError op e :
  isTypeError e →
  catchClause op e
  = failureResponse (if bareFailure op then None else Some (VStr (error_message e))).
Proof.
  intros [Hname Hcode].
  destruct op; simpl; try done; unfold catchStore, duplicateKey; by rewrite Hname, Hcode.
Qed.

Lemma run_no_call {A : Type} dbService (m : js A) s :
  calls (run dbService m s) = [] → final (run dbService m s) = s.
Proof. destruct m; simpl; try done. by destruct (dbService c s). Qed.

Ltac engine :=
  match goal with
  | H : getProp _ _ = inl _ |- _ => by apply getProp_TypeError in H
  | H : deleteProp _ _ = inl _ |- _ => by apply deleteProp_TypeError in H
  | H : stampAddedBy _ _ = inl _ |- _ => by apply stampAddedBy_TypeError in H
  | H1 : truthy ?v = true, H2 : getProp ?v _ = inl _ |- _ =>
      by destruct (getProp_truthy _ _ _ H1 H2)
  end.

(** What a [try] block ends in, by what became of its store call. *)
Lemma tryBlock_outcome op req :
  wp (tryBlock op req)
    (λ tr o,
       match tr with
       | [] =>
           match o with
           | inr r => checkFailure r = true
           | inl e => isTypeError e
           end
       | [(c, Resolved v)] => o = inr recordNotFound ∨ o = inr (ok (answerData c v))
       | [(c, Rejected e)] => o = inl e
       | _ => False
       end).
Proof.
  destruct op; simpl.
  - unfold addOrderItem_try. js_steps; try done; try engine; auto.
  - unfold findAllOrderItem_try. js_steps; try done; try engine; auto.
  - unfold getOrderItemCount_try. js_steps; try done; try engine; auto.
  - unfold softDeleteManyOrderItem_try. js_steps; try done; try engine; auto.
  - unfold bulkInsertOrderItem_try. js_steps; try done; try engine; auto.
  - unfold bulkUpdateOrderItem_try. js_steps; try done; try engine; auto.
  - unfold deleteManyOrderItem_try. js_steps; try done; try engine; auto.
  - unfold softDeleteOrderItem_try. js_steps; try done; try engine; auto.
  - unfold partialUpdateOrderItem_try.
    destruct (updateData req) as [data|e|c k] eqn:Hdata; simpl.
    + js_steps; try done; try engine; auto.
    + by eapply updateData_TypeError.
    + by destruct (updateData_inv req) as [[e' He]|(id & _ & He)]; rewrite He in Hdata.
  - unfold updateOrderItem_try.
    destruct (updateData req) as [data|e|c k] eqn:Hdata; simpl.
    + js_steps; try done; try engine; auto.
    + by eapply updateData_TypeError.
    + by destruct (updateData_inv req) as [[e' He]|(id & _ & He)]; rewrite He in Hdata.
  - unfold getOrderItem_try. js_steps; try done; try engine; auto.
  - unfold deleteOrderItem_try. js_steps; try done; try engine; auto.
Qed.

(** *** The answer, by what became of the store call *)

(** X1.  What a handler answers is fixed by what became of its store call.
    Without a call the answer is a failed check ([badRequest],
    [inValidParam], [invalidObjectId]) or the failure response for a
    [TypeError] of the engine; after a call that resolved with [v] it is
    [recordNotFound()] or [ok] with [v] (wrapped as [{totalRecords: v}] by
    the count calls); after a call that rejected with [e] it is what the
    catch clause makes of [e].  So a rejected call is never answered
    [ok], and a validation or duplicate response never comes without a
    rejected call. *)
Theorem outcome_by_call dbService op req s :
  match calls (run dbService (handler op req) s) with
  | [] =>
      ∃ r, result (run dbService (handler op req) s) = inr r
        ∧ (checkFailure r = true
           ∨ ∃ e, isTypeError e
               ∧ r = failureResponse
                       (if bareFailure op then None else Some (VStr (error_message e))))
  | [(c, Resolved v)] =>
      result (run dbService (handler op req) s) = inr recordNotFound
      ∨ result (run dbService (handler op req) s) = inr (ok (answerData c v))
  | [(c, Rejected e)] =>
      result (run dbService (handler op req) s) = inr (catchClause op e)
  | _ => False
  end.
Proof.
  rewrite handler_try_catch, run_try_catch. simpl.
  pose proof (wp_run dbService _ _ s (tryBlock_outcome op req)) as Hout. simpl in Hout.
  destruct (calls (run dbService (tryBlock op req) s)) as [|[c [v|e]] [|]]; try done.
  - destruct (result (run dbService (tryBlock op req) s)) as [e|r]; eexists; (split; [done|]).
    + right. exists e. split; [done|]. by apply catchClause_TypeError.
    + by left.
  - destruct Hout as [->| ->]; auto.
  - by rewrite Hout.
Qed.

(** A call that rejected ends the [try] block with the error it rejected
    with; a call that resolved ends it with an answer. *)
Lemma rejected_call_is_thrown dbService op req s c e :
  In (c, Rejected e) (calls (run dbService (handler op req) s)) →
  result (run dbService (tryBlock op req) s) = inl e.
Proof.
  rewrite handler_try_catch, run_try_catch. simpl.
  pose proof (wp_run dbService _ _ s (tryBlock_outcome op req)) as Hout. simpl in Hout.
  destruct (calls (run dbService (tryBlock op req) s)) as [|[c' [v'|e']] [|]]; try done.
  - by intros [[=]|[]].
  - by intros [[= <- <-]|[]].
Qed.

Lemma resolved_call_is_answered dbService op req s c v :
  In (c, Resolved v) (calls (run dbService (handler op req) s)) →
  result (run dbService (handler op req) s)
  = result (run dbService (tryBlock op req) s)
  ∧ calls (run dbService (handler op req) s) = [(c, Resolved v)].
Proof.
  rewrite handler_try_catch, run_try_catch. simpl.
  pose proof (wp_run dbService _ _ s (tryBlock_outcome op req)) as Hout. simpl in Hout.
  destruct (calls (run dbService (tryBlock op req) s)) as [|[c' [v'|e']] [|]]; try done.
  - intros [[= <- <-]|[]]. by destruct Hout as [->| ->].
  - by intros [[=]|[]].
Qed.

(** X2.  [addOrderItem], [getOrderItemCount], [bulkInsertOrderItem] and
    [deleteManyOrderItem] never answer [recordNotFound()]: whatever their
    call resolves with, [null] and [0] included, is answered [ok]. *)
Theorem resolved_is_ok dbService op req s c v :
  In op [AddOrderItem; GetOrderItemCount; BulkInsertOrderItem; DeleteManyOrderItem] →
  In (c, Resolved v) (calls (run dbService (handler op req) s)) →
  result (run dbService (handler op req) s) = inr (ok (answerData c v)).
Proof.
  intros Hop Hin. destruct (resolved_call_is_answered _ _ _ _ _ _ Hin) as [-> _].
  revert Hin. rewrite handler_try_catch, run_try_catch. simpl.
  apply (wp_run dbService (tryBlock op req)
           (λ tr o, In (c, Resolved v) tr → o = inr (ok (answerData c v)))).
  simpl in Hop. destruct Hop as [<-|[<-|[<-|[<-|[]]]]]; simpl.
  - unfold addOrderItem_try. js_steps; one_call; done.
  - unfold getOrderItemCount_try. js_steps; one_call; done.
  - unfold bulkInsertOrderItem_try. js_steps; one_call; done.
  - unfold deleteManyOrderItem_try. js_steps; one_call; done.
Qed.

(** X3.  For the handlers that look one record up or change matched
    records ([softDeleteOrderItem], [partialUpdateOrderItem],
    [updateOrderItem], [deleteOrderItem], [bulkUpdateOrderItem],
    [softDeleteManyOrderItem], [getOrderItem]): when the call resolves with
    a truthy value, the answer is [ok] with that value, unchanged. *)
Theorem match_is_ok dbService op req s c v :
  In op [SoftDeleteOrderItem; PartialUpdateOrderItem; UpdateOrderItem;
         DeleteOrderItem; BulkUpdateOrderItem; SoftDeleteManyOrderItem;
         GetOrderItem] →
  In (c, Resolved v) (calls (run dbService (handler op req) s)) →
  truthy v = true →
  result (run dbService (handler op req) s) = inr (ok v).
Proof.
  intros Hop Hin Hv. destruct (resolved_call_is_answered _ _ _ _ _ _ Hin) as [-> _].
  revert Hin. rewrite handler_try_catch, run_try_catch. simpl.
  apply (wp_run dbService (tryBlock op req)
           (λ tr o, In (c, Resolved v) tr → o = inr (ok v))).
  simpl in Hop.
  destruct Hop as [<-|[<-|[<-|[<-|[<-|[<-|[<-|[]]]]]]]]; simpl.
  - unfold softDeleteOrderItem_try.
    js_steps; one_call; rewrite ?Hv in *; simpl in *; congruence.
  - unfold partialUpdateOrderItem_try, updateData.
    js_steps; one_call; rewrite ?Hv in *; simpl in *; congruence.
  - unfold updateOrderItem_try, updateData.
    js_steps; one_call; rewrite ?Hv in *; simpl in *; congruence.
  - unfold deleteOrderItem_try.
    js_steps; one_call; rewrite ?Hv in *; simpl in *; congruence.
  - unfold bulkUpdateOrderItem_try.
    js_steps; one_call; rewrite ?Hv in *; simpl in *; congruence.
  - unfold softDeleteManyOrderItem_try.
    js_steps; one_call; rewrite ?Hv in *; simpl in *; congruence.
  - unfold getOrderItem_try.
    js_steps; one_call; rewrite ?Hv in *; simpl in *; congruence.
Qed.

(** X4.  In [addOrderItem], [bulkInsertOrderItem] and [updateOrderItem],
    a call that rejects with an error named [ValidationError] is answered
    with the validation response, whose message is
    ["Invalid Data, Validation Failed at "] followed by the error's
    message, whatever the code of the error. *)
Theorem store_validation_error dbService op req s c e :
  In op [AddOrderItem; BulkInsertOrderItem; UpdateOrderItem] →
  In (c, Rejected e) (calls (run dbService (handler op req) s)) →
  error_name e = "ValidationError" →
  result (run dbService (handler op req) s)
  = inr (validationError ("Invalid Data, Validation Failed at " +:+ error_message e)).
Proof.
  intros Hop Hin Hname. pose proof (rejected_call_is_thrown _ _ _ _ _ _ Hin) as Htry.
  rewrite handler_try_catch, run_try_catch. simpl. rewrite Htry.
  simpl in Hop. destruct Hop as [<-|[<-|[<-|[]]]]; simpl; unfold catchStore;
    by rewrite Hname.
Qed.

(** X5.  The handlers other than [addOrderItem], [bulkInsertOrderItem] and
    [updateOrderItem] do not look at the error: a call that rejects is
    answered with the failure response, also when the error is a
    validation error or a duplicate key; so a duplicate key is reported as
    [isDuplicate()] by the full update and as a generic failure by the
    partial and the bulk update. *)
Theorem rejection_is_failure dbService op req s c e :
  ¬ In op [AddOrderItem; BulkInsertOrderItem; UpdateOrderItem] →
  In (c, Rejected e) (calls (run dbService (handler op req) s)) →
  result (run dbService (handler op req) s)
  = inr (failureResponse
           (if bareFailure op then None else Some (VStr (error_message e)))).
Proof.
  intros Hop Hin. pose proof (rejected_call_is_thrown _ _ _ _ _ _ Hin) as Htry.
  rewrite handler_try_catch, run_try_catch. simpl. rewrite Htry.
  destruct op; simpl; try done; destruct Hop; simpl; tauto.
Qed.

(** *** Validation *)

(** X6.  A payload the validation layer refuses is answered
    [inValidParam] with the layer's message (after
    ["Invalid values in parameters, "] in the create and update handlers)
    and no call is made; in [addOrderItem], [findAllOrderItem] and
    [getOrderItemCount] this comes before anything else of the request is
    read. *)
Theorem invalid_payload_is_refused dbService op req s v :
  validationOf op req = Some v →
  isValid v = false →
  result (run dbService (handler op req) s) = inr (inValidParam (invalidMessage op v))
  ∧ calls (run dbService (handler op req) s) = [].
Proof.
  intros Hv Hinvalid. destruct op; simpl in Hv; try done.
  - injection Hv as <-. simpl. unfold addOrderItem, addOrderItem_try.
    by rewrite Hinvalid.
  - injection Hv as <-. simpl. unfold findAllOrderItem, findAllOrderItem_try.
    by rewrite Hinvalid.
  - injection Hv as <-. simpl. unfold getOrderItemCount, getOrderItemCount_try.
    by rewrite Hinvalid.
  - simpl. unfold partialUpdateOrderItem, partialUpdateOrderItem_try.
    destruct (updateData req) as [data| |]; try done. injection Hv as <-. simpl.
    by rewrite Hinvalid.
  - simpl. unfold updateOrderItem, updateOrderItem_try.
    destruct (updateData req) as [data| |]; try done. injection Hv as <-. simpl.
    by rewrite Hinvalid.
Qed.

(** X7.  No call without validation: when [addOrderItem],
    [findAllOrderItem], [getOrderItemCount], [partialUpdateOrderItem] or
    [updateOrderItem] makes a call, the validation layer has accepted the
    payload; and the data an update hands over is the very object that was
    validated. *)
Theorem calls_follow_validation dbService op req s c r :
  In op [AddOrderItem; FindAllOrderItem; GetOrderItemCount;
         PartialUpdateOrderItem; UpdateOrderItem] →
  In (c, r) (calls (run dbService (handler op req) s)) →
  ∃ v, validationOf op req = Some v
    ∧ isValid v = true
    ∧ (In op [PartialUpdateOrderItem; UpdateOrderItem] →
       ∃ data, updateData req = Ret data ∧ updateOf c = Some (VObj data)).
Proof.
  intros Hop.
  apply (wp_run dbService (handler op req)
           (λ tr o, In (c, r) tr →
              ∃ v, validationOf op req = Some v ∧ isValid v = true
                ∧ (In op [PartialUpdateOrderItem; UpdateOrderItem] →
                   ∃ data, updateData req = Ret data ∧ updateOf c = Some (VObj data)))).
  simpl in Hop. destruct Hop as [<-|[<-|[<-|[<-|[<-|[]]]]]]; simpl.
  - unfold addOrderItem, addOrderItem_try.
    js_steps; one_call; eexists; (split; [done|]); (split; [by apply negb_false_iff|]);
      intros [[=]|[[=]|[]]].
  - unfold findAllOrderItem, findAllOrderItem_try.
    js_steps; one_call; eexists; (split; [done|]); (split; [by apply negb_false_iff|]);
      intros [[=]|[[=]|[]]].
  - unfold getOrderItemCount, getOrderItemCount_try.
    js_steps; one_call; eexists; (split; [done|]); (split; [by apply negb_false_iff|]);
      intros [[=]|[[=]|[]]].
  - unfold partialUpdateOrderItem, partialUpdateOrderItem_try.
    destruct (updateData_inv req) as [[e ->]|(id & Hid & ->)]; simpl; [by intros []|].
    js_steps; one_call; eexists; (split; [done|]); (split; [by apply negb_false_iff|]);
      intros _; eexists; done.
  - unfold updateOrderItem, updateOrderItem_try.
    destruct (updateData_inv req) as [[e ->]|(id & Hid & ->)]; simpl; [by intros []|].
    js_steps; one_call; eexists; (split; [done|]); (split; [by apply negb_false_iff|]);
      intros _; eexists; done.
Qed.

(** *** Which call, on which record *)

(** X8.  Each handler calls only the function of the data-access layer
    that is its own: the three reading handlers never call one that
    writes, the soft deletes never one that deletes, the deletes never one
    that updates. *)
Theorem handler_calls_its_own dbService op req s c r :
  In (c, r) (calls (run dbService (handler op req) s)) →
  designated op c = true.
Proof.
  apply (wp_run dbService (handler op req) (λ tr o, In (c, r) tr → designated op c = true)).
  destruct op; simpl.
  - unfold addOrderItem, addOrderItem_try. js_steps; one_call; done.
  - unfold findAllOrderItem, findAllOrderItem_try. js_steps; one_call; done.
  - unfold getOrderItemCount, getOrderItemCount_try. js_steps; one_call; done.
  - unfold softDeleteManyOrderItem, softDeleteManyOrderItem_try. js_steps; one_call; done.
  - unfold bulkInsertOrderItem, bulkInsertOrderItem_try. js_steps; one_call; done.
  - unfold bulkUpdateOrderItem, bulkUpdateOrderItem_try. js_steps; one_call; done.
  - unfold deleteManyOrderItem, deleteManyOrderItem_try. js_steps; one_call; done.
  - unfold softDeleteOrderItem, softDeleteOrderItem_try. js_steps; one_call; done.
  - unfold partialUpdateOrderItem, partialUpdateOrderItem_try.
    destruct (updateData_inv req) as [[e ->]|(id & Hid & ->)]; simpl; [by intros []|].
    js_steps; one_call; done.
  - unfold updateOrderItem, updateOrderItem_try.
    destruct (updateData_inv req) as [[e ->]|(id & Hid & ->)]; simpl; [by intros []|].
    js_steps; one_call; done.
  - unfold getOrderItem, getOrderItem_try. js_steps; one_call; done.
  - unfold deleteOrderItem, deleteOrderItem_try. js_steps; one_call; done.
Qed.

(** X9.  The five handlers that address one record query it by
    [{_id: req.params.id}] and by nothing else: the body has no part in
    choosing the record. *)
Theorem by_id_query dbService op req s c r :
  In op [SoftDeleteOrderItem; PartialUpdateOrderItem; UpdateOrderItem;
         GetOrderItem; DeleteOrderItem] →
  In (c, r) (calls (run dbService (handler op req) s)) →
  ∃ id, getProp (params req) "id" = inr id
    ∧ queryOf c = Some (VObj {[ "_id" := id ]}).
Proof.
  intros Hop.
  apply (wp_run dbService (handler op req)
           (λ tr o, In (c, r) tr →
              ∃ id, getProp (params req) "id" = inr id
                ∧ queryOf c = Some (VObj {[ "_id" := id ]}))).
  simpl in Hop. destruct Hop as [<-|[<-|[<-|[<-|[<-|[]]]]]]; simpl.
  - unfold softDeleteOrderItem, softDeleteOrderItem_try. js_steps; one_call; eauto.
  - unfold partialUpdateOrderItem, partialUpdateOrderItem_try.
    destruct (updateData_inv req) as [[e ->]|(id & Hid & ->)]; simpl; [by intros []|].
    js_steps; one_call; eauto.
  - unfold updateOrderItem, updateOrderItem_try.
    destruct (updateData_inv req) as [[e ->]|(id & Hid & ->)]; simpl; [by intros []|].
    js_steps; one_call; eauto.
  - unfold getOrderItem, getOrderItem_try. js_steps; one_call; eauto.
  - unfold deleteOrderItem, deleteOrderItem_try. js_steps; one_call; eauto.
Qed.

(** X10.  Only [getOrderItem] checks the identifier.  [softDeleteOrderItem]
    and [deleteOrderItem] hand whatever [req.params.id] is to the
    data-access layer, [undefined] included, in exactly one call, and
    answer by its result. *)
Theorem delete_by_id_is_unchecked dbService req s id :
  getProp (params req) "id" = inr id →
  (∃ r, calls (run dbService (softDeleteOrderItem req) s)
        = [(findOneAndUpdateDocument OrderItem (VObj {[ "_id" := id ]})
              (VObj {[ "isDeleted" := VBool true ]}) (VObj {[ "new" := VBool true ]}), r)]
      ∧ result (run dbService (softDeleteOrderItem req) s)
        = inr match r with
              | Resolved v => if truthy v then ok v else recordNotFound
              | Rejected e => failureResponse None
              end)
  ∧ (∃ r, calls (run dbService (deleteOrderItem req) s)
          = [(findOneAndDeleteDocument OrderItem (VObj {[ "_id" := id ]}), r)]
        ∧ result (run dbService (deleteOrderItem req) s)
          = inr match r with
                | Resolved v => if truthy v then ok v else recordNotFound
                | Rejected e => failureResponse None
                end).
Proof.
  intros Hid. split.
  - unfold softDeleteOrderItem, softDeleteOrderItem_try, read. rewrite Hid. simpl.
    destruct (dbService _ s) as [[v|e] s']; simpl.
    + exists (Resolved v). by destruct (truthy v).
    + by exists (Rejected e).
  - unfold deleteOrderItem, deleteOrderItem_try, read. rewrite Hid. simpl.
    destruct (dbService _ s) as [[v|e] s']; simpl.
    + exists (Resolved v). by destruct (truthy v).
    + by exists (Rejected e).
Qed.

(** *** Listing and counting *)

(** A property read from a falsy receiver is no object. *)
Lemma getProp_falsy_receiver v k x :
  truthy v = false → getProp v k = inr x → is_object x = false.
Proof.
  destruct v as [| |b|n|str|xs named|fs]; simpl; try done.
  - by intros _ [= <-].
  - by intros _ [= <-].
  - intros Hstr. apply negb_false_iff, String.eqb_eq in Hstr as ->. simpl.
    case_match; by intros [= <-].
Qed.

Ltac page v :=
  exists (Resolved v); repeat (split; [done|]); simpl;
  repeat match goal with
         | H : truthy _ = _ |- _ => rewrite H; simpl
         | H : getProp _ _ = _ |- _ => rewrite H; simpl
         end;
  done.

(** X11.  [findAllOrderItem] on a body that passes the filter validation
    and whose [isCountOnly] is falsy makes exactly one call,
    [getAllDocuments], with the body's [query] and [options], each
    replaced by the empty object when it is not an object.  A result that
    has a non-empty [data] is answered [ok] with the whole result;
    anything else the call resolves with, a page with an empty [data]
    included, is answered [recordNotFound()]. *)
Theorem findAll_documents dbService req s flag :
  isValid (validateFilterWithJoi (body req) findFilterKeys (Some OrderItem_schema_obj))
    = true →
  getProp (body req) "isCountOnly" = inr flag →
  truthy flag = false →
  ∃ q o r,
    getProp (body req) "query" = inr q
    ∧ getProp (body req) "options" = inr o
    ∧ calls (run dbService (findAllOrderItem req) s)
      = [(getAllDocuments OrderItem
            (VObj (if is_object q then spread q else ∅))
            (VObj (if is_object o then spread o else ∅)), r)]
    ∧ result (run dbService (findAllOrderItem req) s)
      = inr match r with
            | Resolved v => if hasData v then ok v else recordNotFound
            | Rejected e => failureResponse (Some (VStr (error_message e)))
            end.
Proof.
  intros Hvalid Hflag Hfalsy.
  pose proof (getProp_receiver _ _ _ Hflag) as Hbody.
  destruct (getProp_not_nullish (body req) "query" Hbody) as [q Hq].
  destruct (getProp_not_nullish (body req) "options" Hbody) as [o Ho].
  exists q, o.
  apply (wp_run dbService (findAllOrderItem req)
           (λ tr res, ∃ r, getProp (body req) "query" = inr q
              ∧ getProp (body req) "options" = inr o
              ∧ tr = [(getAllDocuments OrderItem
                         (VObj (if is_object q then spread q else ∅))
                         (VObj (if is_object o then spread o else ∅)), r)]
              ∧ res = inr match r with
                          | Resolved v => if hasData v then ok v else recordNotFound
                          | Rejected e => failureResponse (Some (VStr (error_message e)))
                          end)).
  unfold findAllOrderItem, findAllOrderItem_try, read, hasData, prop.
  rewrite Hvalid, Hq, Hflag. simpl. rewrite Hfalsy. simpl. rewrite Ho.
  destruct (truthy (body req)) eqn:Htruthy; simpl.
  - intros [v|e]; simpl.
    + destruct (truthy v) eqn:Hv; simpl; [|page v].
      destruct (getProp v "data") as [e|d] eqn:Hd; simpl.
      { by destruct (getProp_truthy _ _ _ Hv Hd). }
      destruct (truthy d) eqn:Hdt; simpl; [|page v].
      destruct (getProp d "length") as [e|len] eqn:Hlen; simpl.
      { by destruct (getProp_truthy _ _ _ Hdt Hlen). }
      destruct (truthy len) eqn:Hl; page v.
    + by exists (Rejected e).
  - rewrite (getProp_falsy_receiver _ _ _ Htruthy Ho).
    intros [v|e]; simpl.
    + destruct (truthy v) eqn:Hv; simpl; [|page v].
      destruct (getProp v "data") as [e|d] eqn:Hd; simpl.
      { by destruct (getProp_truthy _ _ _ Hv Hd). }
      destruct (truthy d) eqn:Hdt; simpl; [|page v].
      destruct (getProp d "length") as [e|len] eqn:Hlen; simpl.
      { by destruct (getProp_truthy _ _ _ Hdt Hlen). }
      destruct (truthy len) eqn:Hl; page v.
    + by exists (Rejected e).
Qed.

(** X12.  [getOrderItemCount] on a body that passes the filter validation
    makes exactly one call, [countDocument] with the body's [where], or
    with the empty filter when [where] is absent or not an object, and
    answers [ok] with [{totalRecords: n}] for whatever [n] the call
    resolves with. *)
Theorem getOrderItemCount_counts dbService req s w :
  isValid (validateFilterWithJoi (body req) findFilterKeys None) = true →
  getProp (body req) "where" = inr w →
  ∃ r,
    calls (run dbService (getOrderItemCount req) s)
    = [(countDocument OrderItem (VObj (if is_object w then spread w else ∅)), r)]
    ∧ result (run dbService (getOrderItemCount req) s)
      = inr match r with
            | Resolved n => ok (VObj {[ "totalRecords" := n ]})
            | Rejected e => failureResponse (Some (VStr (error_message e)))
            end.
Proof.
  intros Hvalid Hw. unfold getOrderItemCount, getOrderItemCount_try, read.
  rewrite Hvalid, Hw. simpl.
  destruct (dbService _ s) as [[n|e] s']; simpl; by eexists.
Qed.

(** *** Bulk operations *)

(** X13.  [bulkUpdateOrderItem] on a request with a body: when
    [req.body.data] is not an object the answer is [badRequest()] and no
    call is made; when it is one, the handler makes exactly one call,
    with the body's [filter], or the empty filter, which matches every
    record, when [filter] is absent or not an object. *)
Theorem bulkUpdate_filter_and_data dbService req s d :
  getProp (body req) "data" = inr d →
  (is_object d = false →
   result (run dbService (bulkUpdateOrderItem req) s) = inr badRequest
   ∧ calls (run dbService (bulkUpdateOrderItem req) s) = [])
  ∧ (is_object d = true →
     ∀ id, getProp (user req) "id" = inr id →
     ∃ f r,
       getProp (body req) "filter" = inr f
       ∧ calls (run dbService (bulkUpdateOrderItem req) s)
         = [(bulkUpdate OrderItem
               (VObj (if is_object f then spread f else ∅))
               (VObj (<["updatedBy" := id]>
                        (delete "updatedBy" (delete "addedBy" (spread d))))), r)]
       ∧ result (run dbService (bulkUpdateOrderItem req) s)
         = inr match r with
               | Resolved v => if truthy v then ok v else recordNotFound
               | Rejected e => failureResponse (Some (VStr (error_message e)))
               end).
Proof.
  intros Hd.
  destruct (getProp_not_nullish (body req) "filter" (getProp_receiver _ _ _ Hd)) as [f Hf].
  assert ((if truthy (body req) then is_object f else false) = is_object f) as Hfilter.
  { destruct (truthy (body req)) eqn:Hb; [done|].
    by rewrite (getProp_falsy_receiver _ _ _ Hb Hf). }
  split.
  - intros Hno. unfold bulkUpdateOrderItem, bulkUpdateOrderItem_try, read.
    rewrite Hf, Hd. destruct (truthy (body req)); simpl; by rewrite Hno.
  - intros Hyes id Hid. exists f.
    unfold bulkUpdateOrderItem, bulkUpdateOrderItem_try, read.
    rewrite Hf, Hd, Hid.
    destruct (truthy (body req)); simpl in *; rewrite Hyes; simpl; rewrite <- ?Hfilter;
      destruct (dbService _ s) as [[v|e] s']; simpl;
      try (exists (Resolved v); by destruct (truthy v));
      by exists (Rejected e).
Qed.

(** X14.  [softDeleteManyOrderItem] and [deleteManyOrderItem] with a
    non-empty array of ids make exactly one call, on the records whose
    [_id] is [$in] the array as it was sent: the ids are not checked, one
    by one or at all.  The soft delete answers by the result as the
    single-record handlers do; the delete answers [ok] with it, whatever
    it is. *)
Theorem bulk_by_ids_query dbService req s x xs named :
  getProp (body req) "ids" = inr (VArr (x :: xs) named) →
  let query := VObj {[ "_id" := VObj {[ "$in" := VArr (x :: xs) named ]} ]} in
  (∃ r, calls (run dbService (softDeleteManyOrderItem req) s)
        = [(bulkUpdate OrderItem query (VObj {[ "isDeleted" := VBool true ]}), r)]
      ∧ result (run dbService (softDeleteManyOrderItem req) s)
        = inr match r with
              | Resolved v => if truthy v then ok v else recordNotFound
              | Rejected e => failureResponse None
              end)
  ∧ (∃ r, calls (run dbService (deleteManyOrderItem req) s)
          = [(deleteMany OrderItem query, r)]
        ∧ result (run dbService (deleteManyOrderItem req) s)
          = inr match r with
                | Resolved v => ok v
                | Rejected e => failureResponse None
                end).
Proof.
  intros Hids query.
  assert (negb (truthy (VArr (x :: xs) named)) || negb (isArray (VArr (x :: xs) named))
          || (array_length (VArr (x :: xs) named) <? 1) = false) as Hguard.
  { apply Z.ltb_ge. simpl. lia. }
  split.
  - unfold softDeleteManyOrderItem, softDeleteManyOrderItem_try, read. rewrite Hids.
    unfold lift. cbn [bind]. rewrite Hguard. simpl.
    destruct (dbService _ s) as [[v|e] s']; simpl.
    + exists (Resolved v). by destruct (truthy v).
    + by exists (Rejected e).
  - unfold deleteManyOrderItem, deleteManyOrderItem_try, read. rewrite Hids.
    unfold lift. cbn [bind]. rewrite Hguard. simpl.
    destruct (dbService _ s) as [[v|e] s']; simpl; by eexists.
Qed.

(** The loop stops at the first element that is [null] or [undefined]. *)
Lemma stampAddedBy_nullish xs id :
  Exists (λ x, nullish x = true) xs →
  ∃ x, In x xs ∧ nullish x = true
    ∧ stampAddedBy xs id
      = inl (TypeError ("Cannot set properties of " +:+ show_nullish x
                        +:+ " (setting 'addedBy')")).
Proof.
  induction xs as [|y ys IH]; intros Hex; [by apply Exists_nil in Hex|].
  destruct (nullish y) eqn:Hy.
  - exists y. split; [by left|]. split; [done|]. by destruct y.
  - apply Exists_cons in Hex as [Hex|Hex]; [congruence|].
    destruct (IH Hex) as (x & Hin & Hx & Hstamp). exists x.
    split; [by right|]. split; [done|]. simpl. rewrite Hstamp. by destruct y.
Qed.

Lemma stampAddedBy_present xs id :
  Forall (λ x, nullish x = false) xs →
  ∃ xs', stampAddedBy xs id = inr xs'
    ∧ Forall2 (λ x x', if is_object x then getProp x' "addedBy" = inr id else x' = x)
        xs xs'.
Proof.
  induction 1 as [|x xs Hx _ (xs' & Hxs & IH)].
  - exists []. by repeat constructor.
  - destruct (is_object x) eqn:Hobj.
    + destruct (setProp_addedBy_object x id Hobj) as (x' & Hset & Hget).
      exists (x' :: xs'). simpl. rewrite Hset, Hxs. split; [done|].
      constructor; [by rewrite Hobj|done].
    + exists (x :: xs'). split.
      * simpl. rewrite Hxs. by destruct x.
      * constructor; [by rewrite Hobj|done].
Qed.

Lemma array_guard x xs named :
  negb (isArray (VArr (x :: xs) named)) || (array_length (VArr (x :: xs) named) <? 1)
  = false.
Proof. apply Z.ltb_ge. simpl. lia. Qed.

(** X15.  [bulkInsertOrderItem] is all or nothing towards an element that
    is [null] (or [undefined]): with the caller's identity at hand the
    assignment of line 150 throws at the first such element, no call is
    made, so no element of the array is inserted, and the answer is the
    failure response with the engine's message. *)
Theorem bulkInsert_stops_at_null dbService req s xs named id :
  getProp (body req) "data" = inr (VArr xs named) →
  Exists (λ x, nullish x = true) xs →
  getProp (user req) "id" = inr id →
  truthy id = true →
  calls (run dbService (bulkInsertOrderItem req) s) = []
  ∧ final (run dbService (bulkInsertOrderItem req) s) = s
  ∧ ∃ x, In x xs ∧ nullish x = true
      ∧ result (run dbService (bulkInsertOrderItem req) s)
        = inr (failureResponse
                 (Some (VStr ("Cannot set properties of " +:+ show_nullish x
                              +:+ " (setting 'addedBy')")))).
Proof.
  intros Hdata Hex Hid Hidt.
  destruct (stampAddedBy_nullish xs id Hex) as (x & Hin & Hx & Hstamp).
  destruct xs as [|y ys]; [done|].
  unfold bulkInsertOrderItem, bulkInsertOrderItem_try, read.
  rewrite (getProp_array_receiver _ _ _ _ Hdata), Hdata, Hid.
  unfold lift. cbn [bind]. rewrite array_guard. cbn [bind]. rewrite Hidt.
  unfold stampEach, lift. rewrite Hstamp. simpl.
  split; [done|]. split; [done|]. by exists x.
Qed.

(** X16.  The identity is stamped only when it is truthy (line 148): for a
    caller whose [req.user.id] is absent or otherwise falsy,
    [bulkInsertOrderItem] hands the array over exactly as the client sent
    it, with any [addedBy] the client put into the elements. *)
Theorem bulkInsert_without_identity dbService req s x xs named id :
  getProp (body req) "data" = inr (VArr (x :: xs) named) →
  getProp (user req) "id" = inr id →
  truthy id = false →
  ∃ r, calls (run dbService (bulkInsertOrderItem req) s)
       = [(bulkInsert OrderItem (VArr (x :: xs) named), r)]
     ∧ result (run dbService (bulkInsertOrderItem req) s)
       = inr match r with
             | Resolved v => ok v
             | Rejected e => catchStore e
             end.
Proof.
  intros Hdata Hid Hidf.
  unfold bulkInsertOrderItem, bulkInsertOrderItem_try, read.
  rewrite (getProp_array_receiver _ _ _ _ Hdata), Hdata, Hid.
  unfold lift. cbn [bind]. rewrite array_guard. cbn [bind]. rewrite Hidf. simpl.
  destruct (dbService _ s) as [[v|e] s']; simpl; by eexists.
Qed.

(** X17.  [bulkInsertOrderItem] with a truthy identity and an array
    without [null] elements makes exactly one call; an element that is an
    object (or an array) has [addedBy] set to the identity, an element
    that is a number, a string or a boolean is handed over as it is,
    without [addedBy]: the assignment to a primitive is dropped. *)
Theorem bulkInsert_elements dbService req s x xs named id :
  getProp (body req) "data" = inr (VArr (x :: xs) named) →
  Forall (λ y, nullish y = false) (x :: xs) →
  getProp (user req) "id" = inr id →
  truthy id = true →
  ∃ xs' r,
    calls (run dbService (bulkInsertOrderItem req) s)
    = [(bulkInsert OrderItem (VArr xs' named), r)]
    ∧ Forall2 (λ y y', if is_object y then getProp y' "addedBy" = inr id else y' = y)
        (x :: xs) xs'.
Proof.
  intros Hdata Hpresent Hid Hidt.
  destruct (stampAddedBy_present _ id Hpresent) as (xs' & Hstamp & Hall).
  exists xs'. unfold bulkInsertOrderItem, bulkInsertOrderItem_try, read.
  rewrite (getProp_array_receiver _ _ _ _ Hdata), Hdata, Hid.
  unfold lift. cbn [bind]. rewrite array_guard. cbn [bind]. rewrite Hidt.
  unfold stampEach, lift. rewrite Hstamp. simpl.
  destruct (dbService _ s) as [[v|e] s']; simpl; by eexists.
Qed.

(** *** The two updates of one record *)

(** X18.  [partialUpdateOrderItem] and [updateOrderItem] have the same
    [try] block: on the same request against the same store they make the
    same call and leave the same store, and they give the same answer
    unless the call rejects with a validation error or a duplicate key,
    which only the full update tells apart from other failures. *)
Theorem partial_and_full_update_agree dbService req s :
  calls (run dbService (partialUpdateOrderItem req) s)
  = calls (run dbService (updateOrderItem req) s)
  ∧ final (run dbService (partialUpdateOrderItem req) s)
    = final (run dbService (updateOrderItem req) s)
  ∧ ((∀ c e, In (c, Rejected e) (calls (run dbService (updateOrderItem req) s)) →
        String.eqb (error_name e) "ValidationError" = false ∧ duplicateKey e = false) →
     result (run dbService (partialUpdateOrderItem req) s)
     = result (run dbService (updateOrderItem req) s)).
Proof.
  change (partialUpdateOrderItem req) with (handler PartialUpdateOrderItem req).
  change (updateOrderItem req) with (handler UpdateOrderItem req).
  rewrite !handler_try_catch, !run_try_catch. simpl.
  change (updateOrderItem_try req) with (partialUpdateOrderItem_try req).
  split; [done|]. split; [done|]. intros Hkind.
  pose proof (wp_run dbService _ _ s (tryBlock_outcome PartialUpdateOrderItem req)) as Hout.
  simpl in Hout.
  destruct (calls (run dbService (partialUpdateOrderItem_try req) s))
    as [|[c [v|e]] [|]]; try done.
  - destruct (result _) as [e|r]; [|done].
    pose proof (catchClause_TypeError UpdateOrderItem e Hout) as Hfull.
    pose proof (catchClause_TypeError PartialUpdateOrderItem e Hout) as Hpartial.
    simpl in Hfull, Hpartial. by rewrite Hfull, Hpartial.
  - by destruct Hout as [->| ->].
  - rewrite Hout. destruct (Hkind c e) as [Hname Hdup]; [by left|].
    unfold catchStore, catchMessage. by rewrite Hname, Hdup.
Qed.

(** *** Requests with a part missing *)

(** The part that is missing was read on the way to the call. *)
Ltac absent :=
  let Hn := fresh "Hn" in
  intros Hn;
  repeat match goal with
         | H : _ || _ = true |- _ => apply orb_true_iff in H as [H|H]
         end;
  match goal with
  | Hn : nullish ?v = true, Hg : getProp ?v ?k = inr _ |- _ =>
      let Hc := fresh in
      destruct (getProp_nullish v k Hn) as [? Hc]; rewrite Hc in Hg; discriminate
  | Hn : nullish ?v = true, Hg : deleteProp ?v _ = inr _ |- _ =>
      destruct v; discriminate
  end.

(** X19.  A handler that reads [req.body], [req.params] or [req.user] on
    the way to its store call makes no call, and leaves the store as it
    is, when that part of the request is [undefined] or [null]; in
    particular nothing is created or updated for a request without
    [req.user]. *)
Theorem missing_part_no_call dbService op req s :
  readsBody op && nullish (body req)
  || readsParams op && nullish (params req)
  || readsUser op && nullish (user req) = true →
  calls (run dbService (handler op req) s) = []
  ∧ final (run dbService (handler op req) s) = s.
Proof.
  intros Hmissing.
  assert (calls (run dbService (handler op req) s) = []) as Hcalls.
  { revert Hmissing.
    apply (wp_run dbService (handler op req)
             (λ tr o, _ = true → tr = [])).
    destruct op; simpl; rewrite ?orb_false_r, ?andb_false_r; simpl.
    - unfold addOrderItem, addOrderItem_try. js_steps; try done; absent.
    - unfold findAllOrderItem, findAllOrderItem_try. js_steps; try done; absent.
    - unfold getOrderItemCount, getOrderItemCount_try. js_steps; try done; absent.
    - unfold softDeleteManyOrderItem, softDeleteManyOrderItem_try.
      js_steps; try done; absent.
    - unfold bulkInsertOrderItem, bulkInsertOrderItem_try. js_steps; try done; absent.
    - unfold bulkUpdateOrderItem, bulkUpdateOrderItem_try. js_steps; try done; absent.
    - unfold deleteManyOrderItem, deleteManyOrderItem_try. js_steps; try done; absent.
    - unfold softDeleteOrderItem, softDeleteOrderItem_try. js_steps; try done; absent.
    - unfold partialUpdateOrderItem, partialUpdateOrderItem_try, updateData.
      js_steps; try done; absent.
    - unfold updateOrderItem, updateOrderItem_try, updateData.
      js_steps; try done; absent.
    - unfold getOrderItem, getOrderItem_try. js_steps; try done; absent.
    - unfold deleteOrderItem, deleteOrderItem_try. js_steps; try done; absent. }
  split; [done|]. by apply run_no_call.
Qed.

End Properties.

(** ** The properties on concrete requests *)

(** Creating [{name: "Widget"}] as user [U1]: the document handed over has
    [addedBy = "U1"]. *)
Example add_widget_as_U1 :
  let out := run (settleWith (Resolved widget)) (addOrderItem (H:=demo) reqAdd) 0%nat in
  calls out
  = [(createDocument OrderItem
        (new OrderItem {[ "name" := VStr "Widget"; "addedBy" := VStr "U1" ]}),
      Resolved widget)]
  ∧ result out = inr (ok widget)
  ∧ final out = 1%nat.
Proof. repeat split; reflexivity. Qed.

(** The three updates on requests whose payload carries an [addedBy] (and
    an [updatedBy]) of the client's: each makes its call, and the data of
    the call has the caller as [updatedBy] and no [addedBy]. *)
Lemma update_strips_and_stamps_witness :
  let db := settleWith (Resolved VNull) in
  let data : obj := {[ "name" := VStr "Widget"; "updatedBy" := VStr "U1" ]} in
  let d := VObj {[ "status" := VStr "closed"; "addedBy" := VStr "attacker" ]} in
  (nullish (body reqUpdate) = false
   ∧ getProp (user reqUpdate) "id" = inr (VStr "U1")
   ∧ getProp (params reqUpdate) "id" = inr (VStr "X")
   ∧ isValid (validateParamsWithJoi (Collaborators:=demo) (VObj data) updateSchemaKeys)
     = true)
  ∧ (∃ r, calls (run db (handler (H:=demo) PartialUpdateOrderItem reqUpdate) 0%nat)
          = [(findOneAndUpdateDocument OrderItem (VObj {[ "_id" := VStr "X" ]})
                (VObj data) (VObj {[ "new" := VBool true ]}), r)])
  ∧ (∃ r, calls (run db (handler (H:=demo) UpdateOrderItem reqUpdate) 0%nat)
          = [(findOneAndUpdateDocument OrderItem (VObj {[ "_id" := VStr "X" ]})
                (VObj data) (VObj {[ "new" := VBool true ]}), r)])
  ∧ (getProp (body reqBulkUpdate) "data" = inr d
     ∧ is_object d = true
     ∧ getProp (user reqBulkUpdate) "id" = inr (VStr "U1"))
  ∧ (∃ f r,
       getProp (body reqBulkUpdate) "filter" = inr f
       ∧ calls (run db (handler (H:=demo) BulkUpdateOrderItem reqBulkUpdate) 0%nat)
         = [(bulkUpdate OrderItem
               (VObj (if truthy (body reqBulkUpdate) && is_object f then spread f else ∅))
               (VObj {[ "status" := VStr "closed"; "updatedBy" := VStr "U1" ]}), r)])
  ∧ (∃ (data' : obj) (id : value),
       updateOf (findOneAndUpdateDocument OrderItem (VObj {[ "_id" := VStr "X" ]})
                   (VObj data) (VObj {[ "new" := VBool true ]}))
       = Some (VObj data')
       ∧ getProp (user reqUpdate) "id" = inr id
       ∧ data' !! "updatedBy" = Some id
       ∧ data' !! "addedBy" = None
       ∧ ∀ k : string, k ≠ "addedBy" → k ≠ "updatedBy" →
           data' !! k = spread (clientUpdate PartialUpdateOrderItem reqUpdate) !! k).
Proof.
  intros db data d.
  destruct (update_strips_and_stamps (H:=demo) db reqUpdate 0%nat)
    as (Hall & Hone & _).
  destruct (update_strips_and_stamps (H:=demo) db reqBulkUpdate 0%nat)
    as (_ & _ & Hbulk).
  split; [repeat split; reflexivity|]. split.
  { exact (Hone PartialUpdateOrderItem (VStr "U1") (VStr "X") (or_introl eq_refl)
             eq_refl eq_refl eq_refl eq_refl). }
  split.
  { exact (Hone UpdateOrderItem (VStr "U1") (VStr "X") (or_intror (or_introl eq_refl))
             eq_refl eq_refl eq_refl eq_refl). }
  split; [repeat split; reflexivity|]. split.
  { exact (Hbulk d (VStr "U1") eq_refl eq_refl eq_refl). }
  apply (Hall PartialUpdateOrderItem _ (Resolved VNull)).
  - simpl. tauto.
  - vm_compute. left. reflexivity.
Defined.

(** The update of record [X] by [U1] with [addedBy: "attacker"] in its
    body: applied to a record, the data handed over leaves [addedBy] as it
    was and sets [updatedBy] to the caller. *)
Example update_keeps_addedBy (record : obj) :
  let out := run (settleWith (Resolved VNull)) (updateOrderItem (H:=demo) reqUpdate) 0%nat in
  ∃ (data : obj) r,
    calls out = [(findOneAndUpdateDocument OrderItem (VObj {[ "_id" := VStr "X" ]})
                    (VObj data) (VObj {[ "new" := VBool true ]}), r)]
    ∧ applyUpdate data record !! "addedBy" = record !! "addedBy"
    ∧ applyUpdate data record !! "updatedBy" = Some (VStr "U1").
Proof.
  exists {[ "name" := VStr "Widget"; "updatedBy" := VStr "U1" ]}, (Resolved VNull).
  split; [reflexivity|]. unfold applyUpdate. split.
  - by rewrite lookup_union_r.
  - by erewrite lookup_union_Some_l.
Qed.

Lemma create_stamps_addedBy_witness :
  getProp (user reqCreate) "id" = inr (VStr "U1")
  ∧ (∃ (fields : obj) r,
       calls (run (settleWith (Resolved VNull)) (addOrderItem (H:=demo) reqCreate) 0%nat)
       = [(createDocument OrderItem (new OrderItem fields), r)]
       ∧ fields !! "addedBy" = Some (VStr "U1")
       ∧ ∀ k : string, k ≠ "addedBy" → fields !! k = spread (body reqCreate) !! k)
  ∧ ∃ xs' r,
      calls (run (settleWith (Resolved VNull)) (bulkInsertOrderItem (H:=demo) reqCreate)
               0%nat)
      = [(bulkInsert OrderItem (VArr xs' ∅), r)]
      ∧ Forall2 (λ x x', setProp x "addedBy" (VStr "U1") = inr x')
          [VObj {[ "name" := VStr "Widget"; "addedBy" := VStr "attacker" ]}] xs'
      ∧ Forall (λ x', getProp x' "addedBy" = inr (VStr "U1")) xs'.
Proof.
  destruct (create_stamps_addedBy (H:=demo) (settleWith (Resolved VNull)) reqCreate 0%nat
              (VStr "U1") eq_refl) as [Hadd Hbulk].
  split; [reflexivity|]. split.
  - apply Hadd. reflexivity.
  - apply Hbulk.
    + reflexivity.
    + discriminate.
    + repeat constructor.
    + reflexivity.
Defined.

Lemma failure_response_message_witness :
  let out op req := run (settleWith (Rejected networkError)) (op req) 0%nat in
  result (out (tryBlock (H:=demo) GetOrderItem) (reqGet "5f8d0d55b54764421b7156c3"))
  = inl networkError
  ∧ String.eqb (error_name networkError) "ValidationError" = false
  ∧ duplicateKey (H:=demo) networkError = false
  ∧ result (out (handler (H:=demo) GetOrderItem) (reqGet "5f8d0d55b54764421b7156c3"))
    = inr (failureResponse (Some (VStr "connection lost"))).
Proof.
  intros out.
  assert (result (out (tryBlock (H:=demo) GetOrderItem) (reqGet "5f8d0d55b54764421b7156c3"))
          = inl networkError) as Htry by reflexivity.
  split; [exact Htry|]. split; [reflexivity|]. split; [reflexivity|].
  exact (failure_response_message (H:=demo) _ GetOrderItem _ _ _ Htry eq_refl eq_refl).
Defined.

(** [deleteManyOrderItem] is neither the single delete nor the soft delete
    of many; the store call fails with an error that is neither a
    validation error nor a duplicate key, and the failure response carries
    no message. *)
Lemma deleteMany_failure_is_bare :
  let out := run (settleWith (Rejected networkError))
               (handler (H:=demo) DeleteManyOrderItem (reqIds [VStr "a"])) 0%nat in
  calls out
  = [(deleteMany OrderItem (VObj {[ "_id" := VObj {[ "$in" := VArr [VStr "a"] ∅ ]} ]}),
      Rejected networkError)]
  ∧ String.eqb (error_name networkError) "ValidationError" = false
  ∧ duplicateKey (H:=demo) networkError = false
  ∧ result out = inr (failureResponse None)
  ∧ result out ≠ inr (failureResponse (Some (VStr (error_message networkError)))).
Proof. repeat split; try reflexivity. discriminate. Qed.

(** The same holds for [softDeleteOrderItem]. *)
Example softDelete_failure_is_bare :
  let out := run (settleWith (Rejected networkError))
               (handler (H:=demo) SoftDeleteOrderItem (reqGet "X")) 0%nat in
  length (calls out) = 1%nat ∧ result out = inr (failureResponse None).
Proof. split; reflexivity. Qed.

Lemma bulk_by_ids_bad_request_witness :
  let req := {| body := VObj ∅; params := VObj ∅; user := U1 |} in
  let out := run (settleWith (Resolved VNull)) (handler (H:=demo) DeleteManyOrderItem req)
               0%nat in
  In DeleteManyOrderItem [SoftDeleteManyOrderItem; DeleteManyOrderItem]
  ∧ getProp (body req) "ids" = inr VUndef
  ∧ result out = inr badRequest
  ∧ calls out = []
  ∧ final out = 0%nat.
Proof.
  intros req out.
  assert (In DeleteManyOrderItem [SoftDeleteManyOrderItem; DeleteManyOrderItem])
    as Hop by (simpl; tauto).
  destruct (bulk_by_ids_bad_request (H:=demo) (settleWith (Resolved VNull))
              DeleteManyOrderItem req 0%nat VUndef Hop eq_refl (or_introl eq_refl))
    as [Hres Hcalls].
  split; [exact Hop|]. split; [reflexivity|]. split; [exact Hres|].
  split; [exact Hcalls|]. reflexivity.
Defined.

(** An empty array and a string in place of the array are refused too. *)
Example softDeleteMany_empty_ids :
  let out ids := run (settleWith (Resolved VNull))
                   (handler (H:=demo) SoftDeleteManyOrderItem
                      {| body := VObj {[ "ids" := ids ]}; params := VObj ∅; user := U1 |})
                   0%nat in
  result (out (VArr [] ∅)) = inr badRequest ∧ final (out (VArr [] ∅)) = 0%nat
  ∧ result (out (VStr "a,b")) = inr badRequest ∧ final (out (VStr "a,b")) = 0%nat.
Proof. repeat split; reflexivity. Qed.

Lemma duplicate_key_response_witness :
  let c := createDocument OrderItem
             (new OrderItem {[ "name" := VStr "Widget"; "addedBy" := VStr "U1" ]}) in
  let out := run (settleWith (Rejected duplicateError)) (handler (H:=demo) AddOrderItem reqAdd)
               0%nat in
  In AddOrderItem [AddOrderItem; BulkInsertOrderItem; UpdateOrderItem]
  ∧ In (c, Rejected duplicateError) (calls out)
  ∧ error_code duplicateError = VNum 11000
  ∧ error_name duplicateError ≠ "ValidationError"
  ∧ result out = inr isDuplicate.
Proof.
  intros c out.
  assert (In AddOrderItem [AddOrderItem; BulkInsertOrderItem; UpdateOrderItem])
    as Hop by (simpl; tauto).
  assert (In (c, Rejected duplicateError) (calls out))
    as Hin by (vm_compute; left; reflexivity).
  assert (error_name duplicateError ≠ "ValidationError") as Hname by discriminate.
  split; [exact Hop|]. split; [exact Hin|]. split; [reflexivity|]. split; [exact Hname|].
  exact (duplicate_key_response (H:=demo) _ _ _ _ _ _ Hop Hin eq_refl Hname).
Defined.

(** [addOrderItem] when the data-access call rejects with an error named
    [ValidationError] whose code is 11000: line 34 answers with the
    validation error before line 37 looks at the code. *)
Lemma validation_error_precedes_duplicate :
  let out := run (settleWith (Rejected validationError11000))
               (handler (H:=demo) AddOrderItem reqAdd) 0%nat in
  calls out
  = [(createDocument OrderItem
        (new OrderItem {[ "name" := VStr "Widget"; "addedBy" := VStr "U1" ]}),
      Rejected validationError11000)]
  ∧ error_code validationError11000 = VNum 11000
  ∧ result out
    = inr (validationError
             "Invalid Data, Validation Failed at name: Path `name` is required.")
  ∧ result out ≠ inr isDuplicate.
Proof. repeat split; try reflexivity. discriminate. Qed.

Lemma getOrderItem_checks_id_witness :
  let out id := run (settleWith (Resolved widget)) (getOrderItem (H:=demo) (reqGet id))
                  0%nat in
  getProp (params (reqGet "order-17")) "id" = inr (VStr "order-17")
  ∧ ObjectID_isValid (Collaborators:=demo) (VStr "order-17") = false
  ∧ result (out "order-17") = inr invalidObjectId
  ∧ calls (out "order-17") = []
  ∧ final (out "order-17") = 0%nat.
Proof.
  intros out.
  destruct (getOrderItem_checks_id (H:=demo) (settleWith (Resolved widget))
              (reqGet "order-17") 0%nat (VStr "order-17") eq_refl) as [Hinvalid _].
  destruct (Hinvalid eq_refl) as [Hres Hcalls].
  split; [reflexivity|]. split; [reflexivity|]. split; [exact Hres|].
  split; [exact Hcalls|]. reflexivity.
Defined.

(** A well-formed identifier is looked up: one query, and the record. *)
Example getOrderItem_valid_id :
  let out := run (settleWith (Resolved widget))
               (getOrderItem (H:=demo) (reqGet "5f8d0d55b54764421b7156c3")) 0%nat in
  result out = inr (ok widget)
  ∧ calls out
    = [(getSingleDocument OrderItem (VObj {[ "_id" := VStr "5f8d0d55b54764421b7156c3" ]})
          (VObj ∅), Resolved widget)].
Proof. split; reflexivity. Qed.

(** [softDeleteManyOrderItem] with [ids = ["a", "b"]] where neither
    exists, and the soft delete and the delete of a record [X] that does
    not exist: the call is made, the store answers [null], the handler
    "not found". *)
Lemma no_match_is_not_found_witness :
  let db := settleWith (Resolved VNull) in
  let many := reqIds [VStr "a"; VStr "b"] in
  getProp (body many) "ids" = inr (VArr [VStr "a"; VStr "b"] ∅)
  ∧ (∃ r, calls (run db (handler (H:=demo) SoftDeleteManyOrderItem many) 0%nat)
          = [(bulkUpdate OrderItem
                (VObj {[ "_id" := VObj {[ "$in" := VArr [VStr "a"; VStr "b"] ∅ ]} ]})
                (VObj {[ "isDeleted" := VBool true ]}), r)]
        ∧ ∀ v, r = Resolved v → truthy v = false →
            result (run db (handler (H:=demo) SoftDeleteManyOrderItem many) 0%nat)
            = inr recordNotFound)
  ∧ getProp (params (reqGet "X")) "id" = inr (VStr "X")
  ∧ (∃ r, calls (run db (handler (H:=demo) SoftDeleteOrderItem (reqGet "X")) 0%nat)
          = [(findOneAndUpdateDocument OrderItem (VObj {[ "_id" := VStr "X" ]})
                (VObj {[ "isDeleted" := VBool true ]})
                (VObj {[ "new" := VBool true ]}), r)]
        ∧ ∀ v, r = Resolved v → truthy v = false →
            result (run db (handler (H:=demo) SoftDeleteOrderItem (reqGet "X")) 0%nat)
            = inr recordNotFound)
  ∧ (∃ r, calls (run db (handler (H:=demo) DeleteOrderItem (reqGet "X")) 0%nat)
          = [(findOneAndDeleteDocument OrderItem (VObj {[ "_id" := VStr "X" ]}), r)]
        ∧ ∀ v, r = Resolved v → truthy v = false →
            result (run db (handler (H:=demo) DeleteOrderItem (reqGet "X")) 0%nat)
            = inr recordNotFound).
Proof.
  intros db many.
  destruct (no_match_is_not_found (H:=demo) db many 0%nat) as (_ & _ & _ & _ & Hmany).
  destruct (no_match_is_not_found (H:=demo) db (reqGet "X") 0%nat) as (_ & Hone & _).
  destruct (Hone (VStr "X") eq_refl) as [Hsoft Hdel].
  split; [reflexivity|]. split.
  { exact (Hmany (VStr "a") [VStr "b"] ∅ eq_refl). }
  split; [reflexivity|]. split; [exact Hsoft|exact Hdel].
Defined.

Example no_match_runs :
  let db := settleWith (Resolved VNull) in
  result (run db (handler (H:=demo) SoftDeleteManyOrderItem (reqIds [VStr "a"; VStr "b"]))
            0%nat) = inr recordNotFound
  ∧ result (run db (handler (H:=demo) DeleteOrderItem (reqGet "X")) 0%nat)
    = inr recordNotFound
  ∧ result (run db (handler (H:=demo) PartialUpdateOrderItem reqUpdate) 0%nat)
    = inr recordNotFound
  ∧ result (run db (handler (H:=demo) BulkUpdateOrderItem reqBulkUpdate) 0%nat)
    = inr recordNotFound.
Proof. repeat split; reflexivity. Qed.

(** An empty result is not the sentinel: when the store answers the soft
    delete of many with an empty array, or the delete of one record with
    an empty object, the handler answers [ok] with it, not "not found". *)
Lemma empty_result_is_answered_ok :
  let many := run (settleWith (Resolved (VArr [] ∅)))
                (handler (H:=demo) SoftDeleteManyOrderItem (reqIds [VStr "a"; VStr "b"]))
                0%nat in
  let one := run (settleWith (Resolved (VObj ∅)))
               (handler (H:=demo) DeleteOrderItem (reqGet "X")) 0%nat in
  calls many
  = [(bulkUpdate OrderItem
        (VObj {[ "_id" := VObj {[ "$in" := VArr [VStr "a"; VStr "b"] ∅ ]} ]})
        (VObj {[ "isDeleted" := VBool true ]}), Resolved (VArr [] ∅))]
  ∧ result many = inr (ok (VArr [] ∅))
  ∧ result many ≠ inr recordNotFound
  ∧ calls one
    = [(findOneAndDeleteDocument OrderItem (VObj {[ "_id" := VStr "X" ]}),
        Resolved (VObj ∅))]
  ∧ result one = inr (ok (VObj ∅))
  ∧ result one ≠ inr recordNotFound.
Proof. repeat split; try reflexivity; discriminate. Qed.

(** The sentinel is a falsy value: a count of zero is one, an empty array
    is not. *)
Example no_match_sentinels :
  let out v := run (settleWith (Resolved v))
                 (handler (H:=demo) SoftDeleteManyOrderItem (reqIds [VStr "a"])) 0%nat in
  result (out (VNum 0)) = inr recordNotFound
  ∧ result (out (VArr [] ∅)) = inr (ok (VArr [] ∅)).
Proof. split; reflexivity. Qed.

Lemma findAll_count_only_witness :
  let out := run (settleWith (Resolved (VNum 3))) (findAllOrderItem (H:=demo) reqCountOnly)
               0%nat in
  isValid (validateFilterWithJoi (Collaborators:=demo) (body reqCountOnly) findFilterKeys
             (Some OrderItem_schema_obj)) = true
  ∧ getProp (body reqCountOnly) "isCountOnly" = inr (VBool true)
  ∧ truthy (VBool true) = true
  ∧ ∃ q r,
      getProp (body reqCountOnly) "query" = inr q
      ∧ calls out
        = [(countDocument OrderItem (VObj (if is_object q then spread q else ∅)), r)]
      ∧ (∀ n, r = Resolved n → result out = inr (ok (VObj {[ "totalRecords" := n ]})))
      ∧ ∀ c r', In (c, r') (calls out) →
          ∀ m query options, c ≠ getAllDocuments m query options.
Proof.
  intros out. split; [reflexivity|]. split; [reflexivity|]. split; [reflexivity|].
  exact (findAll_count_only (H:=demo) (settleWith (Resolved (VNum 3))) reqCountOnly 0%nat
           (VBool true) eq_refl eq_refl eq_refl).
Defined.

Example findAll_count_only_run :
  let out := run (settleWith (Resolved (VNum 3))) (findAllOrderItem (H:=demo) reqCountOnly)
               0%nat in
  result out = inr (ok (VObj {[ "totalRecords" := VNum 3 ]}))
  ∧ calls out
    = [(countDocument OrderItem (VObj {[ "status" := VStr "open" ]}), Resolved (VNum 3))].
Proof. split; reflexivity. Qed.

(** A [null] element in the array of [bulkInsertOrderItem]: the body is
    there, [data] is a non-empty array, so the check of line 144 passes
    and the handler answers none of the check failures; the assignment of
    line 150 throws, and the handler answers with the failure response
    without any call. *)
Lemma bulkInsert_null_element_no_call :
  let out := run (settleWith (Resolved VNull))
               (handler (H:=demo) BulkInsertOrderItem reqNullElement) 0%nat in
  truthy (body reqNullElement) = true
  ∧ getProp (body reqNullElement) "data" = inr (VArr [VNull] ∅)
  ∧ isArray (VArr [VNull] ∅) = true
  ∧ (array_length (VArr [VNull] ∅) <? 1) = false
  ∧ answersBeforeStore (H:=demo) BulkInsertOrderItem reqNullElement = false
  ∧ result out
    = inr (failureResponse
             (Some (VStr "Cannot set properties of null (setting 'addedBy')")))
  ∧ checkFailure (failureResponse
                    (Some (VStr "Cannot set properties of null (setting 'addedBy')")))
    = false
  ∧ calls out = []
  ∧ length (calls out) ≠ 1%nat.
Proof. repeat split; try reflexivity. discriminate. Qed.

Lemma at_most_one_store_call_witness :
  let out := run (settleWith (Resolved widget)) (handler (H:=demo) AddOrderItem reqAdd)
               0%nat in
  answersBeforeStore (H:=demo) AddOrderItem reqAdd = false
  ∧ raisesBeforeStore (H:=demo) AddOrderItem reqAdd = false
  ∧ length (calls out) = 1%nat
  ∧ final out = 1%nat.
Proof.
  intros out.
  destruct (at_most_one_store_call (H:=demo) (settleWith (Resolved widget)) AddOrderItem
              reqAdd 0%nat) as (_ & _ & Hone & _).
  split; [reflexivity|]. split; [reflexivity|]. split; [exact (Hone eq_refl eq_refl)|].
  reflexivity.
Defined.

Lemma soft_delete_writes_only_isDeleted_witness :
  let c := findOneAndUpdateDocument OrderItem (VObj {[ "_id" := VStr "X" ]})
             (VObj {[ "isDeleted" := VBool true ]}) (VObj {[ "new" := VBool true ]}) in
  let out := run (settleWith (Resolved widget))
               (handler (H:=demo) SoftDeleteOrderItem (reqGet "X")) 0%nat in
  In SoftDeleteOrderItem [SoftDeleteOrderItem; SoftDeleteManyOrderItem]
  ∧ In (c, Resolved widget) (calls out)
  ∧ ∃ u : obj,
      updateOf c = Some (VObj u)
      ∧ u = {[ "isDeleted" := VBool true ]}
      ∧ u !! "updatedBy" = None
      ∧ ∀ (record : obj) (k : string),
          k ≠ "isDeleted" → applyUpdate u record !! k = record !! k.
Proof.
  intros c out.
  assert (In SoftDeleteOrderItem [SoftDeleteOrderItem; SoftDeleteManyOrderItem])
    as Hop by (simpl; tauto).
  assert (In (c, Resolved widget) (calls out)) as Hin by (vm_compute; left; reflexivity).
  split; [exact Hop|]. split; [exact Hin|].
  exact (soft_delete_writes_only_isDeleted (H:=demo) _ _ _ _ _ _ Hop Hin).
Defined.

(** ** The further properties on concrete requests *)

Lemma resolved_is_ok_witness :
  let c := deleteMany OrderItem
             (VObj {[ "_id" := VObj {[ "$in" := VArr [VStr "a"] ∅ ]} ]}) in
  let out := run (settleWith (Resolved VNull))
               (handler (H:=demo) DeleteManyOrderItem (reqIds [VStr "a"])) 0%nat in
  In DeleteManyOrderItem
    [AddOrderItem; GetOrderItemCount; BulkInsertOrderItem; DeleteManyOrderItem]
  ∧ In (c, Resolved VNull) (calls out)
  ∧ result out = inr (ok VNull).
Proof.
  intros c out.
  assert (In DeleteManyOrderItem
            [AddOrderItem; GetOrderItemCount; BulkInsertOrderItem; DeleteManyOrderItem])
    as Hop by (simpl; tauto).
  assert (In (c, Resolved VNull) (calls out)) as Hin by (vm_compute; left; reflexivity).
  split; [exact Hop|]. split; [exact Hin|].
  exact (resolved_is_ok (H:=demo) _ _ _ _ _ _ Hop Hin).
Defined.

Lemma match_is_ok_witness :
  let c := getSingleDocument OrderItem
             (VObj {[ "_id" := VStr "5f8d0d55b54764421b7156c3" ]}) (VObj ∅) in
  let out := run (settleWith (Resolved widget))
               (handler (H:=demo) GetOrderItem (reqGet "5f8d0d55b54764421b7156c3"))
               0%nat in
  In GetOrderItem
    [SoftDeleteOrderItem; PartialUpdateOrderItem; UpdateOrderItem;
     DeleteOrderItem; BulkUpdateOrderItem; SoftDeleteManyOrderItem; GetOrderItem]
  ∧ In (c, Resolved widget) (calls out)
  ∧ truthy widget = true
  ∧ result out = inr (ok widget).
Proof.
  intros c out.
  assert (In GetOrderItem
            [SoftDeleteOrderItem; PartialUpdateOrderItem; UpdateOrderItem;
             DeleteOrderItem; BulkUpdateOrderItem; SoftDeleteManyOrderItem; GetOrderItem])
    as Hop by (simpl; tauto).
  assert (In (c, Resolved widget) (calls out)) as Hin by (vm_compute; left; reflexivity).
  split; [exact Hop|]. split; [exact Hin|]. split; [reflexivity|].
  exact (match_is_ok (H:=demo) _ _ _ _ _ _ Hop Hin eq_refl).
Defined.

Lemma store_validation_error_witness :
  let c := createDocument OrderItem
             (new OrderItem {[ "name" := VStr "Widget"; "addedBy" := VStr "U1" ]}) in
  let out := run (settleWith (Rejected validationError11000))
               (handler (H:=demo) AddOrderItem reqAdd) 0%nat in
  In AddOrderItem [AddOrderItem; BulkInsertOrderItem; UpdateOrderItem]
  ∧ In (c, Rejected validationError11000) (calls out)
  ∧ error_name validationError11000 = "ValidationError"
  ∧ result out
    = inr (validationError
             ("Invalid Data, Validation Failed at "
              +:+ error_message validationError11000)).
Proof.
  intros c out.
  assert (In AddOrderItem [AddOrderItem; BulkInsertOrderItem; UpdateOrderItem])
    as Hop by (simpl; tauto).
  assert (In (c, Rejected validationError11000) (calls out))
    as Hin by (vm_compute; left; reflexivity).
  split; [exact Hop|]. split; [exact Hin|]. split; [reflexivity|].
  exact (store_validation_error (H:=demo) _ _ _ _ _ _ Hop Hin eq_refl).
Defined.

(** A duplicate key on the partial update of record [X]: a generic
    failure. *)
Lemma rejection_is_failure_witness :
  let c := findOneAndUpdateDocument OrderItem (VObj {[ "_id" := VStr "X" ]})
             (VObj {[ "name" := VStr "Widget"; "updatedBy" := VStr "U1" ]})
             (VObj {[ "new" := VBool true ]}) in
  let out := run (settleWith (Rejected duplicateError))
               (handler (H:=demo) PartialUpdateOrderItem reqUpdate) 0%nat in
  ¬ In PartialUpdateOrderItem [AddOrderItem; BulkInsertOrderItem; UpdateOrderItem]
  ∧ In (c, Rejected duplicateError) (calls out)
  ∧ result out
    = inr (failureResponse (Some (VStr "E11000 duplicate key error collection"))).
Proof.
  intros c out.
  assert (¬ In PartialUpdateOrderItem [AddOrderItem; BulkInsertOrderItem; UpdateOrderItem])
    as Hop by (simpl; intros [|[|[|[]]]]; discriminate).
  assert (In (c, Rejected duplicateError) (calls out))
    as Hin by (vm_compute; left; reflexivity).
  split; [exact Hop|]. split; [exact Hin|].
  exact (rejection_is_failure (H:=demo) _ _ _ _ _ _ Hop Hin).
Defined.

Lemma invalid_payload_is_refused_witness :
  let v := validateParamsWithJoi (Collaborators:=demo) (VStr "Widget") schemaKeys in
  let out := run (settleWith (Resolved VNull)) (handler (H:=demo) AddOrderItem reqString)
               0%nat in
  validationOf (H:=demo) AddOrderItem reqString = Some v
  ∧ isValid v = false
  ∧ result out
    = inr (inValidParam "Invalid values in parameters, value must be of type object")
  ∧ calls out = [].
Proof.
  intros v out. split; [reflexivity|]. split; [reflexivity|].
  exact (invalid_payload_is_refused (H:=demo) (settleWith (Resolved VNull)) AddOrderItem
           reqString 0%nat v eq_refl eq_refl).
Defined.

Lemma calls_follow_validation_witness :
  let c := findOneAndUpdateDocument OrderItem (VObj {[ "_id" := VStr "X" ]})
             (VObj {[ "name" := VStr "Widget"; "updatedBy" := VStr "U1" ]})
             (VObj {[ "new" := VBool true ]}) in
  let out := run (settleWith (Resolved VNull))
               (handler (H:=demo) UpdateOrderItem reqUpdate) 0%nat in
  In UpdateOrderItem
    [AddOrderItem; FindAllOrderItem; GetOrderItemCount;
     PartialUpdateOrderItem; UpdateOrderItem]
  ∧ In (c, Resolved VNull) (calls out)
  ∧ ∃ v, validationOf (H:=demo) UpdateOrderItem reqUpdate = Some v
      ∧ isValid v = true
      ∧ (In UpdateOrderItem [PartialUpdateOrderItem; UpdateOrderItem] →
         ∃ data, updateData reqUpdate = Ret data ∧ updateOf c = Some (VObj data)).
Proof.
  intros c out.
  assert (In UpdateOrderItem
            [AddOrderItem; FindAllOrderItem; GetOrderItemCount;
             PartialUpdateOrderItem; UpdateOrderItem])
    as Hop by (simpl; tauto).
  assert (In (c, Resolved VNull) (calls out)) as Hin by (vm_compute; left; reflexivity).
  split; [exact Hop|]. split; [exact Hin|].
  exact (calls_follow_validation (H:=demo) _ _ _ _ _ _ Hop Hin).
Defined.

Lemma handler_calls_its_own_witness :
  let c := countDocument OrderItem (VObj {[ "status" := VStr "open" ]}) in
  let out := run (settleWith (Resolved (VNum 3)))
               (handler (H:=demo) FindAllOrderItem reqCountOnly) 0%nat in
  In (c, Resolved (VNum 3)) (calls out)
  ∧ designated FindAllOrderItem c = true.
Proof.
  intros c out.
  assert (In (c, Resolved (VNum 3)) (calls out)) as Hin by (vm_compute; left; reflexivity).
  split; [exact Hin|].
  exact (handler_calls_its_own (H:=demo) _ _ _ _ _ _ Hin).
Defined.

Lemma by_id_query_witness :
  let c := findOneAndUpdateDocument OrderItem (VObj {[ "_id" := VStr "X" ]})
             (VObj {[ "name" := VStr "Gadget"; "updatedBy" := VStr "U1" ]})
             (VObj {[ "new" := VBool true ]}) in
  let out := run (settleWith (Resolved VNull))
               (handler (H:=demo) PartialUpdateOrderItem (reqById (VStr "X"))) 0%nat in
  In PartialUpdateOrderItem
    [SoftDeleteOrderItem; PartialUpdateOrderItem; UpdateOrderItem;
     GetOrderItem; DeleteOrderItem]
  ∧ In (c, Resolved VNull) (calls out)
  ∧ ∃ id, getProp (params (reqById (VStr "X"))) "id" = inr id
      ∧ queryOf c = Some (VObj {[ "_id" := id ]}).
Proof.
  intros c out.
  assert (In PartialUpdateOrderItem
            [SoftDeleteOrderItem; PartialUpdateOrderItem; UpdateOrderItem;
             GetOrderItem; DeleteOrderItem])
    as Hop by (simpl; tauto).
  assert (In (c, Resolved VNull) (calls out)) as Hin by (vm_compute; left; reflexivity).
  split; [exact Hop|]. split; [exact Hin|].
  exact (by_id_query (H:=demo) _ _ _ _ _ _ Hop Hin).
Defined.

(** A request whose route gave no [id]: the record "undefined" is asked
    for, by both deletes. *)
Lemma delete_by_id_is_unchecked_witness :
  let req := {| body := VObj ∅; params := VObj ∅; user := U1 |} in
  getProp (params req) "id" = inr VUndef
  ∧ (∃ r, calls (run (settleWith (Resolved VNull)) (softDeleteOrderItem req) 0%nat)
          = [(findOneAndUpdateDocument OrderItem (VObj {[ "_id" := VUndef ]})
                (VObj {[ "isDeleted" := VBool true ]}) (VObj {[ "new" := VBool true ]}), r)]
        ∧ result (run (settleWith (Resolved VNull)) (softDeleteOrderItem req)
                    0%nat)
          = inr match r with
                | Resolved v => if truthy v then ok v else recordNotFound
                | Rejected e => failureResponse None
                end)
  ∧ (∃ r, calls (run (settleWith (Resolved VNull)) (deleteOrderItem req) 0%nat)
          = [(findOneAndDeleteDocument OrderItem (VObj {[ "_id" := VUndef ]}), r)]
        ∧ result (run (settleWith (Resolved VNull)) (deleteOrderItem req) 0%nat)
          = inr match r with
                | Resolved v => if truthy v then ok v else recordNotFound
                | Rejected e => failureResponse None
                end).
Proof.
  intros req. split; [reflexivity|].
  exact (delete_by_id_is_unchecked (settleWith (Resolved VNull)) req 0%nat
           VUndef eq_refl).
Defined.

(** Listing: the query is an object and is passed, [options] is a string
    and is replaced by the empty object. *)
Lemma findAll_documents_witness :
  let out := run (settleWith (Resolved page)) (findAllOrderItem (H:=demo) reqList) 0%nat in
  isValid (validateFilterWithJoi (Collaborators:=demo) (body reqList) findFilterKeys
             (Some OrderItem_schema_obj)) = true
  ∧ getProp (body reqList) "isCountOnly" = inr VUndef
  ∧ truthy VUndef = false
  ∧ ∃ q o r,
      getProp (body reqList) "query" = inr q
      ∧ getProp (body reqList) "options" = inr o
      ∧ calls out
        = [(getAllDocuments OrderItem
              (VObj (if is_object q then spread q else ∅))
              (VObj (if is_object o then spread o else ∅)), r)]
      ∧ result out
        = inr match r with
              | Resolved v => if hasData v then ok v else recordNotFound
              | Rejected e => failureResponse (Some (VStr (error_message e)))
              end.
Proof.
  intros out. split; [reflexivity|]. split; [reflexivity|]. split; [reflexivity|].
  exact (findAll_documents (H:=demo) (settleWith (Resolved page)) reqList 0%nat VUndef
           eq_refl eq_refl eq_refl).
Defined.

Example findAll_pages :
  let out v := run (settleWith (Resolved v)) (findAllOrderItem (H:=demo) reqList) 0%nat in
  calls (out page)
  = [(getAllDocuments OrderItem (VObj {[ "status" := VStr "open" ]}) (VObj ∅),
      Resolved page)]
  ∧ result (out page) = inr (ok page)
  ∧ result (out emptyPage) = inr recordNotFound
  ∧ result (out (VArr [widget] ∅)) = inr recordNotFound.
Proof. repeat split; reflexivity. Qed.

Lemma getOrderItemCount_counts_witness :
  let out := run (settleWith (Resolved (VNum 0))) (getOrderItemCount (H:=demo) reqWhere)
               0%nat in
  isValid (validateFilterWithJoi (Collaborators:=demo) (body reqWhere) findFilterKeys None)
  = true
  ∧ getProp (body reqWhere) "where" = inr (VObj {[ "status" := VStr "open" ]})
  ∧ ∃ r,
      calls out = [(countDocument OrderItem (VObj {[ "status" := VStr "open" ]}), r)]
      ∧ result out
        = inr match r with
              | Resolved n => ok (VObj {[ "totalRecords" := n ]})
              | Rejected e => failureResponse (Some (VStr (error_message e)))
              end.
Proof.
  intros out. split; [reflexivity|]. split; [reflexivity|].
  exact (getOrderItemCount_counts (H:=demo) (settleWith (Resolved (VNum 0))) reqWhere 0%nat
           (VObj {[ "status" := VStr "open" ]}) eq_refl eq_refl).
Defined.

(** A count of zero is a count, not a missing record. *)
Example count_of_zero :
  result (run (settleWith (Resolved (VNum 0))) (getOrderItemCount (H:=demo) reqWhere) 0%nat)
  = inr (ok (VObj {[ "totalRecords" := VNum 0 ]})).
Proof. reflexivity. Qed.

(** A bulk update without [filter] is an update of every record. *)
Lemma bulkUpdate_filter_and_data_witness :
  let d := VObj {[ "status" := VStr "closed"; "addedBy" := VStr "attacker" ]} in
  let out := run (settleWith (Resolved (VNum 7))) (bulkUpdateOrderItem reqBulkUpdate)
               0%nat in
  getProp (body reqBulkUpdate) "data" = inr d
  ∧ is_object d = true
  ∧ getProp (user reqBulkUpdate) "id" = inr (VStr "U1")
  ∧ ∃ f r,
      getProp (body reqBulkUpdate) "filter" = inr f
      ∧ calls out
        = [(bulkUpdate OrderItem
              (VObj (if is_object f then spread f else ∅))
              (VObj (<["updatedBy" := VStr "U1"]>
                       (delete "updatedBy" (delete "addedBy" (spread d))))), r)]
      ∧ result out
        = inr match r with
              | Resolved v => if truthy v then ok v else recordNotFound
              | Rejected e => failureResponse (Some (VStr (error_message e)))
              end.
Proof.
  intros d out. split; [reflexivity|]. split; [reflexivity|]. split; [reflexivity|].
  destruct (bulkUpdate_filter_and_data (settleWith (Resolved (VNum 7)))
              reqBulkUpdate 0%nat d eq_refl) as [_ Hcall].
  exact (Hcall eq_refl (VStr "U1") eq_refl).
Defined.

Example bulkUpdate_without_filter :
  let out := run (settleWith (Resolved (VNum 7))) (bulkUpdateOrderItem reqBulkUpdate)
               0%nat in
  calls out
  = [(bulkUpdate OrderItem (VObj ∅)
        (VObj {[ "status" := VStr "closed"; "updatedBy" := VStr "U1" ]}),
      Resolved (VNum 7))]
  ∧ result out = inr (ok (VNum 7)).
Proof. split; reflexivity. Qed.

Lemma bulk_by_ids_query_witness :
  let req := reqIds [VStr "a"; VNum 5] in
  let query := VObj {[ "_id" := VObj {[ "$in" := VArr [VStr "a"; VNum 5] ∅ ]} ]} in
  getProp (body req) "ids" = inr (VArr [VStr "a"; VNum 5] ∅)
  ∧ (∃ r, calls (run (settleWith (Resolved VNull)) (softDeleteManyOrderItem req)
                   0%nat)
          = [(bulkUpdate OrderItem query (VObj {[ "isDeleted" := VBool true ]}), r)]
        ∧ result (run (settleWith (Resolved VNull)) (softDeleteManyOrderItem req)
                    0%nat)
          = inr match r with
                | Resolved v => if truthy v then ok v else recordNotFound
                | Rejected e => failureResponse None
                end)
  ∧ (∃ r, calls (run (settleWith (Resolved VNull)) (deleteManyOrderItem req)
                   0%nat)
          = [(deleteMany OrderItem query, r)]
        ∧ result (run (settleWith (Resolved VNull)) (deleteManyOrderItem req)
                    0%nat)
          = inr match r with
                | Resolved v => ok v
                | Rejected e => failureResponse None
                end).
Proof.
  intros req query. split; [reflexivity|].
  exact (bulk_by_ids_query (settleWith (Resolved VNull)) req 0%nat
           (VStr "a") [VNum 5] ∅ eq_refl).
Defined.

Lemma bulkInsert_stops_at_null_witness :
  let req := {| body := VObj {[ "data" := VArr [widget; VNull] ∅ ]};
                params := VObj ∅; user := U1 |} in
  let out := run (settleWith (Resolved VNull)) (bulkInsertOrderItem (H:=demo) req) 0%nat in
  getProp (body req) "data" = inr (VArr [widget; VNull] ∅)
  ∧ Exists (λ x, nullish x = true) [widget; VNull]
  ∧ getProp (user req) "id" = inr (VStr "U1")
  ∧ truthy (VStr "U1") = true
  ∧ calls out = []
  ∧ final out = 0%nat
  ∧ ∃ x, In x [widget; VNull] ∧ nullish x = true
      ∧ result out
        = inr (failureResponse
                 (Some (VStr ("Cannot set properties of " +:+ show_nullish x
                              +:+ " (setting 'addedBy')")))).
Proof.
  intros req out.
  assert (Exists (λ x, nullish x = true) [widget; VNull]) as Hex.
  { right. left. reflexivity. }
  split; [reflexivity|]. split; [exact Hex|]. split; [reflexivity|]. split; [reflexivity|].
  exact (bulkInsert_stops_at_null (H:=demo) (settleWith (Resolved VNull)) req 0%nat
           [widget; VNull] ∅ (VStr "U1") eq_refl Hex eq_refl eq_refl).
Defined.

Lemma bulkInsert_without_identity_witness :
  let x := VObj {[ "name" := VStr "Widget"; "addedBy" := VStr "attacker" ]} in
  let out := run (settleWith (Resolved VNull)) (bulkInsertOrderItem (H:=demo) reqNoIdentity)
               0%nat in
  getProp (body reqNoIdentity) "data" = inr (VArr [x] ∅)
  ∧ getProp (user reqNoIdentity) "id" = inr VUndef
  ∧ truthy VUndef = false
  ∧ ∃ r, calls out = [(bulkInsert OrderItem (VArr [x] ∅), r)]
       ∧ result out
         = inr match r with
               | Resolved v => ok v
               | Rejected e => catchStore (H:=demo) e
               end.
Proof.
  intros x out. split; [reflexivity|]. split; [reflexivity|]. split; [reflexivity|].
  exact (bulkInsert_without_identity (H:=demo) (settleWith (Resolved VNull)) reqNoIdentity
           0%nat x [] ∅ VUndef eq_refl eq_refl eq_refl).
Defined.

Lemma bulkInsert_elements_witness :
  let out := run (settleWith (Resolved VNull)) (bulkInsertOrderItem (H:=demo) reqMixed)
               0%nat in
  getProp (body reqMixed) "data" = inr (VArr [widget; VNum 5] ∅)
  ∧ Forall (λ y, nullish y = false) [widget; VNum 5]
  ∧ getProp (user reqMixed) "id" = inr (VStr "U1")
  ∧ truthy (VStr "U1") = true
  ∧ ∃ xs' r,
      calls out = [(bulkInsert OrderItem (VArr xs' ∅), r)]
      ∧ Forall2 (λ y y', if is_object y then getProp y' "addedBy" = inr (VStr "U1")
                         else y' = y)
          [widget; VNum 5] xs'.
Proof.
  intros out.
  assert (Forall (λ y, nullish y = false) [widget; VNum 5]) as Hall.
  { repeat constructor. }
  split; [reflexivity|]. split; [exact Hall|]. split; [reflexivity|]. split; [reflexivity|].
  exact (bulkInsert_elements (H:=demo) (settleWith (Resolved VNull)) reqMixed 0%nat
           widget [VNum 5] ∅ (VStr "U1") eq_refl Hall eq_refl eq_refl).
Defined.

Example bulkInsert_entity_and_number :
  calls (run (settleWith (Resolved VNull)) (bulkInsertOrderItem (H:=demo) reqMixed) 0%nat)
  = [(bulkInsert OrderItem
        (VArr [VObj {[ "name" := VStr "Widget"; "addedBy" := VStr "U1" ]}; VNum 5] ∅),
      Resolved VNull)].
Proof. reflexivity. Qed.

Lemma missing_part_no_call_witness :
  let out := run (settleWith (Resolved widget)) (handler (H:=demo) AddOrderItem reqNoUser)
               0%nat in
  readsBody AddOrderItem && nullish (body reqNoUser)
  || readsParams AddOrderItem && nullish (params reqNoUser)
  || readsUser AddOrderItem && nullish (user reqNoUser) = true
  ∧ calls out = []
  ∧ final out = 0%nat.
Proof.
  intros out. split; [reflexivity|].
  exact (missing_part_no_call (H:=demo) (settleWith (Resolved widget)) AddOrderItem
           reqNoUser 0%nat eq_refl).
Defined.

(** The answers of the two updates to a duplicate key and to a lost
    connection. *)
Example updates_on_rejection :
  let partial e := result (run (settleWith (Rejected e))
                             (partialUpdateOrderItem (H:=demo) reqUpdate) 0%nat) in
  let full e := result (run (settleWith (Rejected e))
                          (updateOrderItem (H:=demo) reqUpdate) 0%nat) in
  full duplicateError = inr isDuplicate
  ∧ partial duplicateError
    = inr (failureResponse (Some (VStr "E11000 duplicate key error collection")))
  ∧ full networkError = partial networkError.
Proof. repeat split; reflexivity. Qed.
